(** * aio_lambda_api: the Lambda request dispatcher

    A shallow embedding of [aio_lambda_api/core.py] (the [Handler] class:
    route registration, event decoding, parameter injection, the call of the
    route function and the construction of the API Gateway response) and of
    [aio_lambda_api/exceptions.py] (the [HTTPException] class).

    Python objects are modelled as follows.
    - JSON-like Python values are the inductive [value]; a [dict] with string
      keys is a [gmap string value].
    - Raising is explicit: a computation returns an [outcome], either [Ok] or
      [Raise] of an exception [exn].
    - The per-invocation log record is a mutable dict shared by the
      dispatcher, the response builder and the route function; it is threaded
      as state through the monad [M].
    - The [Response] created for an invocation is a mutable object handed to
      the route function by reference; the route function is a transformer
      of the pair (log record, response). *)

From stdpp Require Import gmap strings list fin_maps pretty.
From Stdlib Require Import ZArith Ascii.

Set Warnings "-register-all".
Local Open Scope Z_scope.

(** ** Python values *)

Inductive value : Type :=
| VNone
| VBool (b : bool)
| VInt (n : Z)
| VStr (s : string)
| VBytes (bs : list Byte.byte)
| VList (xs : list value)
| VDict (d : gmap string value).

(** [x is None] *)
Definition is_none (v : value) : bool :=
  match v with VNone => true | _ => false end.

(** Python truth value testing, as used by [or], [if x:] and [elif x:]. *)
Definition truthy (v : value) : bool :=
  match v with
  | VNone => false
  | VBool b => b
  | VInt n => negb (n =? 0)
  | VStr s => negb (String.eqb s "")
  | VBytes bs => match bs with [] => false | _ => true end
  | VList xs => match xs with [] => false | _ => true end
  | VDict d => negb (Nat.eqb (size d) 0)
  end.

(** The per-invocation log record, a dict of fields. *)
Abbreviation logrec := (gmap string value).

(** ** exceptions.py *)

Module HTTPException.

(** The slots of [HTTPException]; [__init__] stores its arguments, with
    [detail], [headers] and [error_detail] defaulting to [None]. *)
Record t : Type := mk {
  status_code : Z;
  _detail : value;
  headers : option (gmap string value);
  _error_detail : value
}.

(** [HTTPException(status_code)] *)
Definition of_code (code : Z) : t := mk code VNone None VNone.

End HTTPException.

Inductive exn : Type :=
| HttpExc (e : HTTPException.t)
| ValidationError (errors : value)
| KeyError (key : value)
| TypeError
| ValueError (msg : string)
| TimeoutError
| OtherError (name : string).

Inductive outcome (A : Type) : Type :=
| Ok (a : A)
| Raise (e : exn).
Arguments Ok {A} a.
Arguments Raise {A} e.

Definition obind {A B} (o : outcome A) (f : A -> outcome B) : outcome B :=
  match o with Ok a => f a | Raise e => Raise e end.

(** [try: o except KeyError: h] on a computation without state. *)
Definition except_KeyError {A} (o : outcome A) (h : outcome A) : outcome A :=
  match o with Raise (KeyError _) => h | _ => o end.

(** ** The state and exception monad of the dispatcher *)

Definition M (A : Type) : Type := logrec -> logrec * outcome A.

Definition ret {A} (a : A) : M A := fun log => (log, Ok a).

Definition bind {A B} (m : M A) (f : A -> M B) : M B :=
  fun log =>
    match m log with
    | (log', Ok a) => f a log'
    | (log', Raise e) => (log', Raise e)
    end.

Definition lift {A} (o : outcome A) : M A := fun log => (log, o).

(** [log[k] = v] *)
Definition log_set (k : string) (v : value) : M unit :=
  fun log => (<[k := v]> log, Ok tt).

(** [try: m except KeyError: h] *)
Definition try_KeyError {A} (m : M A) (h : M A) : M A :=
  fun log =>
    match m log with
    | (log', Raise (KeyError _)) => h log'
    | r => r
    end.

Declare Scope dispatch_scope.
Delimit Scope dispatch_scope with dispatch.
Notation "'let!' x ':=' m 'in' k" := (bind m (fun x => k))
  (at level 10, x pattern, m at level 100, k at level 200) : dispatch_scope.
Notation "m ';;;' k" := (bind m (fun _ => k))
  (at level 100, k at level 200, right associativity) : dispatch_scope.
Notation "'let?' x ':=' o 'in' k" := (obind o (fun x => k))
  (at level 10, x pattern, o at level 100, k at level 200) : dispatch_scope.
Local Open Scope dispatch_scope.

(** ** Requests, responses and route functions *)

(** The Lambda context object; only [aws_request_id] is read. *)
Record LambdaContext : Type := { aws_request_id : value }.

Module Request.
(** [Request(event, context)] wraps the event and the context. *)
Record t : Type := mk { event : value; context : LambdaContext }.
End Request.

(** What [Response.render] returns: text ([str]) or binary data. *)
Inductive rendered : Type :=
| Text (s : string)
| Binary (bs : list Byte.byte).

(** [len(body)] of a rendered body. *)
Definition len (r : rendered) : Z :=
  match r with
  | Text s => Z.of_nat (String.length s)
  | Binary bs => Z.of_nat (length bs)
  end.

Module Response.
(** Modelled from the spec: [responses.py] is absent.  A response has a
    mutable status code, a headers mapping, a content that is opaque
    until rendered, an optional media type and a render step that
    serialises a content to text or bytes. *)
Record t : Type := mk {
  status_code : Z;
  headers : gmap string value;
  content : value;
  media_type : option string;
  render : value -> rendered
}.

(** [response.content = v] *)
Definition set_content (r : t) (v : value) : t :=
  mk (status_code r) (headers r) v (media_type r) (render r).
End Response.

(** A keyword argument of a route function: a field of the request body,
    the request of the invocation, or a reference to the response object
    created for the invocation. *)
Inductive arg : Type :=
| ArgBody (v : value)
| ArgRequest (r : Request.t)
| ArgResponse.

(** What a route function returns: a plain value or a [Response]. *)
Inductive handler_result : Type :=
| RetValue (v : value)
| RetResponse (r : Response.t).

(** Running a coroutine under [wait_for(func, FUNCTION_TIMEOUT)]: it
    returns, raises, or is still pending when the timeout expires.  The log
    record and the response may have been mutated on the way. *)
Inductive completion : Type :=
| Returned (log : logrec) (response : Response.t) (content : handler_result)
| Raised (log : logrec) (e : exn)
| TimedOut (log : logrec).

Definition coroutine : Type := logrec -> Response.t -> completion.

(** The annotation of a declared parameter, as [_check_signature] reads it:
    a class deriving from [Request], a class deriving from [Response], or
    anything else. *)
Inductive annotation : Type := AnnRequest | AnnResponse | AnnOther.

(** A route function: its signature, and what calling it with keyword
    arguments does (an argument check may raise at call time; otherwise the
    call returns a coroutine). *)
Record callable : Type := {
  parameters : list (string * annotation);
  call : gmap string arg -> outcome coroutine
}.

(** The classes stored in [_APIRoute.params]. *)
Inductive param_cls : Type := ClsRequest | ClsResponse.

Module _APIRoute.
Record t : Type := mk {
  status_code : Z;
  func : callable;
  params : gmap string param_cls
}.
End _APIRoute.

(** [Handler._routes] *)
Abbreviation routes := (gmap string (gmap string _APIRoute.t)).

(** The API Gateway response returned by the entry point. *)
Record envelope : Type := {
  body : option string;
  statusCode : string;
  headers : gmap string value;
  isBase64Encoded : bool
}.

(** ** Collaborators that are not part of core.py and exceptions.py

    The modules [status], [json], [requests], [logging] of the package, the
    optional pydantic validator and the Python built-ins [str], [b64encode]
    and [traceback.format_exc] are parameters of the development.  All of
    them are taken total; the two request accessors may raise. *)
Class Externals : Type := {
  (** [status.get_status_message]: the reason phrase of a status code. *)
  get_status_message : Z -> string;
  (** [json.dumps]: the JSON encoder, producing text. *)
  dumps : value -> string;
  (** [str(x)] *)
  py_str : value -> string;
  (** [b64encode(data).decode()] *)
  b64encode : list Byte.byte -> string;
  (** [Request.json()]: the decoded body, [None] when there is none. *)
  request_json : Request.t -> outcome value;
  (** [Request.headers[name]]; raises [KeyError] when absent. *)
  request_headers : Request.t -> string -> outcome value;
  (** The fields of the log record when the logging scope opens. *)
  logger_enter : value -> logrec;
  (** The traceback text recorded for a propagating exception. *)
  format_exc : exn -> string;
  (** [pydantic.validate_arguments], [None] when pydantic is missing. *)
  _validate_arguments : option (callable -> callable)
}.

Section Core.
Context `{Externals}.

(** *** exceptions.py: the two properties of HTTPException *)

(** [self._detail or get_status_message(self.status_code)] *)
Definition detail (e : HTTPException.t) : value :=
  if truthy (HTTPException._detail e) then HTTPException._detail e
  else VStr (get_status_message (HTTPException.status_code e)).

Definition error_detail (e : HTTPException.t) : option string :=
  if truthy (HTTPException._error_detail e)
  then Some (py_str (HTTPException._error_detail e))
  else if truthy (HTTPException._detail e)
  then Some (py_str (HTTPException._detail e))
  else None.

(** *** Responses *)

(** Modelled from the spec: [responses.py] is absent.  [JSONResponse]
    renders its content with the JSON encoder to text, has media type
    [application/json] and starts with no headers. *)
Definition JSONResponse (content : value) (status_code : Z) : Response.t :=
  Response.mk status_code ∅ content (Some "application/json")
    (fun v => Text (dumps v)).

(** *** Dict access *)

(** [d[k]] on a Python value [d] with a string key. *)
Definition getitem (d : value) (k : string) : outcome value :=
  match d with
  | VDict m =>
      match m !! k with
      | Some v => Ok v
      | None => Raise (KeyError (VStr k))
      end
  | _ => Raise TypeError
  end.

(** [d[k]] on a dict with string keys and an arbitrary key value: lists
    and dicts are unhashable, any other absent key is a [KeyError]. *)
Definition dict_getitem {A} (d : gmap string A) (k : value) : outcome A :=
  match k with
  | VStr s =>
      match d !! s with
      | Some a => Ok a
      | None => Raise (KeyError k)
      end
  | VList _ | VDict _ => Raise TypeError
  | _ => Raise (KeyError k)
  end.

(** *** Handler._get_route_from_event *)

Definition _get_route_from_event (event : value) : outcome (value * value) :=
  let? request_context := getitem event "requestContext" in
  match getitem request_context "http" with
  | Raise (KeyError _) =>
      (* REST API *)
      let? method := getitem request_context "httpMethod" in
      let? path := getitem request_context "path" in
      Ok (method, path)
  | Raise e => Raise e
  | Ok http =>
      (* HTTP API *)
      let? method := getitem http "method" in
      let? path := getitem http "path" in
      Ok (method, path)
  end.

(** *** Handler._prepare_request *)

(** The body of the loop over [route.params.items()]. *)
Definition inject (request : Request.t) (param_name : string)
    (cls : param_cls) (kwargs : gmap string arg) : gmap string arg :=
  match cls with
  | ClsRequest => <[param_name := ArgRequest request]> kwargs
  | ClsResponse => <[param_name := ArgResponse]> kwargs
  end.

(** The object bound to a parameter of class [cls]. *)
Definition injected (request : Request.t) (cls : param_cls) : arg :=
  match cls with
  | ClsRequest => ArgRequest request
  | ClsResponse => ArgResponse
  end.

(** [body.copy() if isinstance(body, dict) else dict()] *)
Definition body_kwargs (body : value) : gmap string arg :=
  match body with
  | VDict d => ArgBody <$> d
  | _ => ∅
  end.

(** The keyword arguments the route function is called with. *)
Definition make_kwargs (request : Request.t) (route : _APIRoute.t)
    (body : value) : gmap string arg :=
  map_fold (inject request) (body_kwargs body) (_APIRoute.params route).

Definition _prepare_request (self : routes) (path method : value)
    (event : value) (context : LambdaContext)
  : outcome (Request.t * Response.t * coroutine) :=
  let? path_routes :=
    except_KeyError (dict_getitem self path)
      (Raise (HttpExc (HTTPException.of_code 404))) in
  let? route :=
    except_KeyError (dict_getitem path_routes method)
      (Raise (HttpExc (HTTPException.of_code 405))) in
  let request := Request.mk event context in
  let response := JSONResponse VNone (_APIRoute.status_code route) in
  let? body := request_json request in
  let kwargs := make_kwargs request route body in
  let? func := call (_APIRoute.func route) kwargs in
  Ok (request, response, func).

(** *** Handler._prepare_response *)

Definition _prepare_response (response : Response.t) : M envelope :=
  fun log =>
    let status_code := Response.status_code response in
    let headers := Response.headers response in
    let body := Response.content response in
    let '(status_code, body) :=
      if is_none body then
        if status_code =? 200 then (204, body)
        else if status_code >=? 400 then
          (status_code,
           VDict {[ "details" := VStr (get_status_message status_code) ]})
        else (status_code, body)
      else (status_code, body) in
    let '(body, headers, is_base64_encoded) :=
      if is_none body then (None, headers, false)
      else
        let body := Response.render response body in
        let headers :=
          <["content-length" := VStr (pretty (len body))]> headers in
        let headers :=
          match Response.media_type response with
          | Some media_type => <["content-type" := VStr media_type]> headers
          | None => headers
          end in
        match body with
        | Binary bs => (Some (b64encode bs), headers, true)
        | Text s => (Some s, headers, false)
        end in
    let log := <["status_code" := VInt status_code]> log in
    let headers :=
      match log !! "request_id" with
      | Some request_id => <["x-request-id" := request_id]> headers
      | None => headers
      end in
    (log, Ok {| body := body;
                statusCode := pretty status_code;
                headers := headers;
                isBase64Encoded := is_base64_encoded |}).

(** *** Handler._call_route_function *)

Definition _call_route_function (func : coroutine) (response : Response.t)
  : M envelope :=
  fun log =>
    match func log response with
    | Returned log' response' content =>
        let response'' :=
          match content with
          | RetResponse r => r
          | RetValue v => Response.set_content response' v
          end in
        _prepare_response response'' log'
    | Raised log' e => (log', Raise e)
    | TimedOut log' => (log', Raise TimeoutError)
    end.

(** *** Handler.__call__ *)

(** The first inner [try]: the request identifier comes from the
    [x-request-id] header, else from the request context of the event. *)
Definition set_request_id (request : Request.t) (event : value) : M unit :=
  try_KeyError
    (let! request_id := lift (request_headers request "x-request-id") in
     log_set "request_id" request_id)
    (let! request_id :=
       lift (let? request_context := getitem event "requestContext" in
             getitem request_context "requestId") in
     log_set "request_id" request_id).

(** The second inner [try]: the user agent is recorded when there is one. *)
Definition set_user_agent (request : Request.t) : M unit :=
  try_KeyError
    (let! user_agent := lift (request_headers request "user-agent") in
     log_set "user_agent" user_agent)
    (ret tt).

(** The statements of the [try] block. *)
Definition try_block (self : routes) (method path : value) (event : value)
    (context : LambdaContext) : M envelope :=
  log_set "method" method ;;;
  log_set "path" path ;;;
  let! (request, response, func) :=
    lift (_prepare_request self path method event context) in
  set_request_id request event ;;;
  set_user_agent request ;;;
  _call_route_function func response.

(** [except HTTPException as exception:] *)
Definition except_HTTPException (exception : HTTPException.t) : M envelope :=
  match error_detail exception with
  | Some s =>
      if negb (String.eqb s "") then log_set "error_detail" (VStr s)
      else ret tt
  | None => ret tt
  end ;;;
  log_set "status_code" (VInt (HTTPException.status_code exception)) ;;;
  (if HTTPException.status_code exception >=? 500
   then log_set "level" (VStr "error")
   else if HTTPException.status_code exception >=? 400
   then log_set "level" (VStr "warning")
   else ret tt) ;;;
  _prepare_response
    (JSONResponse (VDict {[ "detail" := detail exception ]})
       (HTTPException.status_code exception)).

(** The log record after the statements of the [except HTTPException]
    clause that precede the construction of the response. *)
Definition http_failure_log (exception : HTTPException.t) (log : logrec)
  : logrec :=
  let log1 :=
    match error_detail exception with
    | Some s => if negb (String.eqb s "")
                then <["error_detail" := VStr s]> log else log
    | None => log
    end in
  let log2 :=
    <["status_code" := VInt (HTTPException.status_code exception)]> log1 in
  if HTTPException.status_code exception >=? 500
  then <["level" := VStr "error"]> log2
  else if HTTPException.status_code exception >=? 400
  then <["level" := VStr "warning"]> log2
  else log2.

(** [except ValidationError as exception:] *)
Definition except_ValidationError (errors : value) : M envelope :=
  log_set "error_detail" (VStr (dumps errors)) ;;;
  log_set "status_code" (VInt 422) ;;;
  log_set "level" (VStr "warning") ;;;
  _prepare_response (JSONResponse (VDict {[ "detail" := errors ]}) 422).

(** The [try] statement with its two [except] clauses; any other exception
    is not handled. *)
Definition try_statement (self : routes) (method path : value)
    (event : value) (context : LambdaContext) : M envelope :=
  fun log =>
    match try_block self method path event context log with
    | (log', Raise (HttpExc exception)) => except_HTTPException exception log'
    | (log', Raise (ValidationError errors)) =>
        except_ValidationError errors log'
    | r => r
    end.

(** Modelled from the spec: [logging.py] is absent.  The logging scope is
    opened with the request identifier of the invocation; when an exception
    leaves the scope it records status 500, level "critical" and the
    traceback, and lets the exception propagate. *)
Definition _logger {A} (request_id : value) (m : M A) : logrec * outcome A :=
  match m (logger_enter request_id) with
  | (log, Raise e) =>
      (<["error_detail" := VStr (format_exc e)]>
         (<["level" := VStr "critical"]>
            (<["status_code" := VInt 500]> log)),
       Raise e)
  | r => r
  end.

(** The entry point.  The result is the log record flushed by the logging
    scope ([None] when the exception was raised before the scope opened)
    and either the response or the exception that propagates. *)
Definition __call__ (self : routes) (event : value) (context : LambdaContext)
  : option logrec * outcome envelope :=
  match _get_route_from_event event with
  | Raise e => (None, Raise e)
  | Ok (method, path) =>
      let '(log, r) :=
        _logger (aws_request_id context)
          (try_statement self method path event context) in
      (Some log, r)
  end.

(** *** Registration *)

Definition _check_signature (func : callable) : gmap string param_cls :=
  foldl
    (fun params param =>
       match param.2 with
       | AnnRequest => <[param.1 := ClsRequest]> params
       | AnnResponse => <[param.1 := ClsResponse]> params
       | AnnOther => params
       end)
    ∅ (parameters func).

(** [status_code or 200] *)
Definition status_code_or_200 (status_code : option Z) : Z :=
  match status_code with
  | Some c => if c =? 0 then 200 else c
  | None => 200
  end.

(** [Handler._api_route(path, method, status_code=status_code)(func)]: the
    new route table and the value returned by the decorator. *)
Definition _api_route (self : routes) (path method : string)
    (status_code : option Z) (func : callable) : outcome (routes * callable) :=
  let params := _check_signature func in
  let func :=
    match _validate_arguments with
    | Some validate_arguments => validate_arguments func
    | None => func
    end in
  let '(self, path_routes) :=
    match self !! path with
    | Some path_routes => (self, path_routes)
    | None => (<[path := ∅]> self, ∅)
    end in
  match path_routes !! method with
  | None =>
      let route :=
        _APIRoute.mk (status_code_or_200 status_code) func params in
      Ok (<[path := <[method := route]> path_routes]> self, func)
  | Some _ => Raise (ValueError "Route already registered")
  end.

End Core.

(** *** The registration methods of Handler, one per HTTP method *)

Module Handler.

Definition delete `{Externals} (self : routes) (path : string)
    (status_code : option Z) (func : callable) :=
  _api_route self path "DELETE" status_code func.

Definition get `{Externals} (self : routes) (path : string)
    (status_code : option Z) (func : callable) :=
  _api_route self path "GET" status_code func.

Definition head `{Externals} (self : routes) (path : string)
    (status_code : option Z) (func : callable) :=
  _api_route self path "HEAD" status_code func.

Definition options `{Externals} (self : routes) (path : string)
    (status_code : option Z) (func : callable) :=
  _api_route self path "OPTIONS" status_code func.

Definition patch `{Externals} (self : routes) (path : string)
    (status_code : option Z) (func : callable) :=
  _api_route self path "PATCH" status_code func.

Definition post `{Externals} (self : routes) (path : string)
    (status_code : option Z) (func : callable) :=
  _api_route self path "POST" status_code func.

Definition put `{Externals} (self : routes) (path : string)
    (status_code : option Z) (func : callable) :=
  _api_route self path "PUT" status_code func.

End Handler.

(** The seven registration methods, each with the HTTP method it
    registers. *)
Definition registration_methods `{Externals}
  : list (string *
          (routes -> string -> option Z -> callable ->
           outcome (routes * callable))) :=
  [ ("DELETE", Handler.delete); ("GET", Handler.get); ("HEAD", Handler.head);
    ("OPTIONS", Handler.options); ("PATCH", Handler.patch);
    ("POST", Handler.post); ("PUT", Handler.put) ].

(** The route tables a [Handler] can hold: [__init__] creates the empty
    table and only a successful registration changes it. *)
Inductive registered_table `{Externals} : routes -> Prop :=
| table_init : registered_table ∅
| table_route self path method status_code func self' func' :
    registered_table self ->
    _api_route self path method status_code func = Ok (self', func') ->
    registered_table self'.

(** The route function of an invocation raises [e], starting from the log
    record [log0] of the [try] block and leaving the log record [log']: the
    call of the route function raises, or its coroutine raises while it
    runs, or the coroutine is still pending when the timeout expires. *)
Inductive handler_raises `{Externals} (self : routes) (method path : value)
    (event : value) (context : LambdaContext) (log0 : logrec)
  : exn -> logrec -> Prop :=
| raises_at_call path_routes route body e :
    dict_getitem self path = Ok path_routes ->
    dict_getitem path_routes method = Ok route ->
    request_json (Request.mk event context) = Ok body ->
    call (_APIRoute.func route)
      (make_kwargs (Request.mk event context) route body) = Raise e ->
    handler_raises self method path event context log0 e
      (<["path" := path]> (<["method" := method]> log0))
| raises_in_run request response func log1 log2 log3 e :
    _prepare_request self path method event context
      = Ok (request, response, func) ->
    set_request_id request event
      (<["path" := path]> (<["method" := method]> log0)) = (log1, Ok tt) ->
    set_user_agent request log1 = (log2, Ok tt) ->
    func log2 response = Raised log3 e ->
    handler_raises self method path event context log0 e log3
| raises_timeout request response func log1 log2 log3 :
    _prepare_request self path method event context
      = Ok (request, response, func) ->
    set_request_id request event
      (<["path" := path]> (<["method" := method]> log0)) = (log1, Ok tt) ->
    set_user_agent request log1 = (log2, Ok tt) ->
    func log2 response = TimedOut log3 ->
    handler_raises self method path event context log0 TimeoutError log3.

(** An exception that neither [except] clause of the entry point handles. *)
Definition unexpected (e : exn) : Prop :=
  match e with
  | HttpExc _ | ValidationError _ => False
  | _ => True
  end.

(** [path] is registered for [method]. *)
Definition has_route (self : routes) (path method : string) : Prop :=
  exists path_routes route,
    self !! path = Some path_routes /\ path_routes !! method = Some route.

(** [self._routes[path][method]] when both keys are present. *)
Definition lookup_route (self : routes) (path method : string)
  : option _APIRoute.t :=
  self !! path ≫= fun path_routes => path_routes !! method.

(** The class [_check_signature] stores for an annotation, if any. *)
Definition cls_of_annotation (a : annotation) : option param_cls :=
  match a with
  | AnnRequest => Some ClsRequest
  | AnnResponse => Some ClsResponse
  | AnnOther => None
  end.

(** What the decorator of [_api_route] stores and returns for [func]. *)
Definition validated `{Externals} (func : callable) : callable :=
  match _validate_arguments with
  | Some validate_arguments => validate_arguments func
  | None => func
  end.

(** The route function of an invocation returns: starting from the log
    record [log0] of the [try] block, the route is found, the request
    identifier and the user agent are recorded, and the coroutine returns
    [content], leaving the response object [response'] and the log record
    [log']. *)
Inductive handler_returns `{Externals} (self : routes) (method path : value)
    (event : value) (context : LambdaContext) (log0 : logrec)
  : Response.t -> handler_result -> logrec -> Prop :=
| returns_in_run request response func log1 log2 log3 response' content :
    _prepare_request self path method event context
      = Ok (request, response, func) ->
    set_request_id request event
      (<["path" := path]> (<["method" := method]> log0)) = (log1, Ok tt) ->
    set_user_agent request log1 = (log2, Ok tt) ->
    func log2 response = Returned log3 response' content ->
    handler_returns self method path event context log0 response' content
      log3.

(** The body of an envelope for a rendered content, and its base64 flag. *)
Definition envelope_body `{Externals} (r : rendered) : string :=
  match r with
  | Text s => s
  | Binary bs => b64encode bs
  end.

Definition is_binary (r : rendered) : bool :=
  match r with Text _ => false | Binary _ => true end.

(** ** A concrete instance of the collaborators

    Used to run the dispatcher on concrete events. *)

Module Reference.

(** The double quote character, as a string. *)
Definition dq : string := String "034"%char "".

(** Modelled from the spec: [status.py] is absent.  The reason phrases
    are those the spec and the tests of the package quote; this instance
    gives any other code the empty phrase. *)
Definition get_status_message (code : Z) : string :=
  if code =? 400 then "Bad Request"
  else if code =? 401 then "Unauthorized"
  else if code =? 403 then "Forbidden"
  else if code =? 404 then "Not Found"
  else if code =? 405 then "Method Not Allowed"
  else if code =? 422 then "Unprocessable Entity"
  else if code =? 500 then "Internal Server Error"
  else if code =? 503 then "Service Unavailable"
  else "".

(** A JSON string literal; the quote and the backslash are escaped. *)
Fixpoint escape (s : string) : string :=
  match s with
  | EmptyString => EmptyString
  | String c s' =>
      if Ascii.eqb c "034"%char then String "\"%char (String c (escape s'))
      else if Ascii.eqb c "\"%char then String c (String c (escape s'))
      else String c (escape s')
  end.

Definition quote (s : string) : string := dq +:+ escape s +:+ dq.

Fixpoint join (sep : string) (parts : list string) : string :=
  match parts with
  | [] => ""
  | [p] => p
  | p :: ps => p +:+ sep +:+ join sep ps
  end.

(** Modelled from the spec: [json.py] is absent.  The encoder writes
    compact JSON text, as in the spec's end-to-end examples. *)
Fixpoint dumps (v : value) : string :=
  match v with
  | VNone => "null"
  | VBool true => "true"
  | VBool false => "false"
  | VInt n => pretty n
  | VStr s => quote s
  | VBytes bs => quote (String.string_of_list_byte bs)
  | VList xs => "[" +:+ join "," (map dumps xs) +:+ "]"
  | VDict d =>
      "{" +:+
      join ","
        (map_fold (fun k x acc => (quote k +:+ ":" +:+ dumps x) :: acc) [] d)
      +:+ "}"
  end.

(** [str(x)]: a string is itself; this instance prints any other value
    as its JSON text. *)
Definition py_str (v : value) : string :=
  match v with VStr s => s | _ => dumps v end.

Definition alphabet : string :=
  "ABCDEFGHIJKLMNOPQRSTUVWXYZabcdefghijklmnopqrstuvwxyz0123456789+/".

Definition sextet (n : N) : string :=
  match String.get (N.to_nat (n mod 64)) alphabet with
  | Some c => String c ""
  | None => ""
  end.

(** Standard base64 with padding. *)
Fixpoint b64encode (bs : list Byte.byte) : string :=
  match bs with
  | [] => ""
  | [a] =>
      let n := (Byte.to_N a * 65536)%N in
      sextet (n / 262144) +:+ sextet (n / 4096) +:+ "=="
  | [a; b] =>
      let n := (Byte.to_N a * 65536 + Byte.to_N b * 256)%N in
      sextet (n / 262144) +:+ sextet (n / 4096) +:+ sextet (n / 64) +:+ "="
  | a :: b :: c :: rest =>
      let n := (Byte.to_N a * 65536 + Byte.to_N b * 256 + Byte.to_N c)%N in
      sextet (n / 262144) +:+ sextet (n / 4096) +:+ sextet (n / 64)
      +:+ sextet n +:+ b64encode rest
  end.

(** Modelled from the spec: [requests.py] is absent.  The body is the
    decoded [body] field of the event, [None] when the event has none. *)
Definition request_json (r : Request.t) : outcome value :=
  match getitem (Request.event r) "body" with
  | Ok v => Ok v
  | Raise _ => Ok VNone
  end.

(** Modelled from the spec: [requests.py] is absent.  The headers are the
    [headers] field of the event. *)
Definition request_headers (r : Request.t) (name : string)
  : outcome value :=
  match getitem (Request.event r) "headers" with
  | Ok hs => getitem hs name
  | Raise _ => Raise (KeyError (VStr name))
  end.

(** Modelled from the spec: [logging.py] is absent.  The record starts
    at level "info". *)
Definition logger_enter (request_id : value) : logrec :=
  {[ "level" := VStr "info" ]}.

Definition format_exc (e : exn) : string :=
  "Traceback (most recent call last):".

(** A validator in the manner of pydantic for a route function declared
    with one parameter [value: int]: the call raises a validation error
    unless the argument is an integer. *)
Definition validate_int_value (func : callable) : callable :=
  {| parameters := parameters func;
     call := fun kwargs =>
       match kwargs !! "value" with
       | Some (ArgBody (VInt _)) => call func kwargs
       | _ => Raise (ValidationError (VList [VStr "type_error.integer"]))
       end |}.

(** The collaborators, with or without a validator. *)
Definition externals (validator : option (callable -> callable))
  : Externals :=
  Build_Externals get_status_message dumps py_str b64encode request_json
    request_headers logger_enter format_exc validator.

(** The collaborators without a validator, and with the validator
    above. *)
Definition plain : Externals := externals None.
Definition validating : Externals := externals (Some validate_int_value).

End Reference.

(** ** Concrete events and route functions, after the tests of the package *)

Module Samples.

Definition context : LambdaContext := {| aws_request_id := VStr "aws-1" |}.

(** An HTTP API event: method and path under [requestContext.http]. *)
Definition http_event (method path : string) (body : value) : value :=
  VDict {[
    "requestContext" :=
      VDict {[ "http" :=
                 VDict {[ "method" := VStr method; "path" := VStr path ]};
               "requestId" := VStr "req-1" ]};
    "headers" := VDict ∅;
    "body" := body ]}.

(** A REST API event: [httpMethod] and [path] in the request context. *)
Definition rest_event (method path : string) : value :=
  VDict {[
    "requestContext" :=
      VDict {[ "httpMethod" := VStr method; "path" := VStr path;
               "requestId" := VStr "req-1" ]};
    "headers" := VDict ∅;
    "body" := VNone ]}.

(** A REST API shaped event whose top-level [httpMethod] and [path]
    differ from those of its request context. *)
Definition rest_event_two_levels : value :=
  VDict {[
    "requestContext" :=
      VDict {[ "httpMethod" := VStr "GET"; "path" := VStr "/inner";
               "requestId" := VStr "req-1" ]};
    "httpMethod" := VStr "POST";
    "path" := VStr "/outer";
    "headers" := VDict ∅;
    "body" := VNone ]}.

(** An event with [httpMethod] and [path] at its top level only. *)
Definition rest_event_top_level_only : value :=
  VDict {[
    "requestContext" := VDict {[ "requestId" := VStr "req-1" ]};
    "httpMethod" := VStr "POST";
    "path" := VStr "/outer";
    "headers" := VDict ∅;
    "body" := VNone ]}.

(** An HTTP API event without a request identifier. *)
Definition http_event_without_request_id (method path : string) : value :=
  VDict {[
    "requestContext" :=
      VDict {[ "http" :=
                 VDict {[ "method" := VStr method; "path" := VStr path ]} ]};
    "headers" := VDict ∅;
    "body" := VNone ]}.

(** An HTTP API event that carries an "x-request-id" header. *)
Definition http_event_with_header (method path : string) : value :=
  VDict {[
    "requestContext" :=
      VDict {[ "http" :=
                 VDict {[ "method" := VStr method; "path" := VStr path ]};
               "requestId" := VStr "req-1" ]};
    "headers" := VDict {[ "x-request-id" := VStr "client-7" ]};
    "body" := VNone ]}.

(** [async def f(): return v] *)
Definition returns (v : value) : callable :=
  {| parameters := [];
     call := fun kwargs =>
       if Nat.eqb (size kwargs) 0
       then Ok (fun log response => Returned log response (RetValue v))
       else Raise TypeError |}.

(** [async def f(): raise e] *)
Definition raises (e : exn) : callable :=
  {| parameters := [];
     call := fun kwargs =>
       if Nat.eqb (size kwargs) 0
       then Ok (fun log response => Raised log e)
       else Raise TypeError |}.

(** [async def f(): await sleep(forever)] *)
Definition hangs : callable :=
  {| parameters := [];
     call := fun kwargs =>
       if Nat.eqb (size kwargs) 0
       then Ok (fun log response => TimedOut log)
       else Raise TypeError |}.

(** [async def f(response: Response): response.status_code = code] *)
Definition sets_status (code : Z) : callable :=
  {| parameters := [("response", AnnResponse)];
     call := fun kwargs =>
       match kwargs !! "response" with
       | Some ArgResponse =>
           Ok (fun log response =>
                 Returned log
                   (Response.mk code (Response.headers response)
                      (Response.content response)
                      (Response.media_type response)
                      (Response.render response))
                   (RetValue VNone))
       | _ => Raise TypeError
       end |}.

(** [async def f(value): return value] *)
Definition echo_value : callable :=
  {| parameters := [("value", AnnOther)];
     call := fun kwargs =>
       match kwargs !! "value" with
       | Some (ArgBody v) =>
           Ok (fun log response => Returned log response (RetValue v))
       | _ => Raise TypeError
       end |}.

(** [async def f(request: Request, response: Response): return None];
    the call checks that it received the two objects. *)
Definition wants_both : callable :=
  {| parameters := [("request", AnnRequest); ("response", AnnResponse);
                    ("other", AnnOther)];
     call := fun kwargs =>
       match kwargs !! "request", kwargs !! "response" with
       | Some (ArgRequest _), Some ArgResponse =>
           Ok (fun log response => Returned log response (RetValue VNone))
       | _, _ => Raise TypeError
       end |}.

(** [async def f(): return Response(data, media_type=...)], a response
    whose render step passes bytes through. *)
Definition returns_binary (data : list Byte.byte) : callable :=
  {| parameters := [];
     call := fun kwargs =>
       if Nat.eqb (size kwargs) 0
       then Ok (fun log response =>
                  Returned log response
                    (RetResponse
                       (Response.mk 200 ∅ (VBytes data)
                          (Some "application/octet-stream")
                          (fun v => match v with
                                    | VBytes bs => Binary bs
                                    | VStr s => Text s
                                    | _ => Text ""
                                    end))))
       else Raise TypeError |}.

(** A route table holding one route. *)
Definition one_route (path method : string) (status_code : Z)
    (func : callable) : routes :=
  {[ path := {[ method :=
       _APIRoute.mk status_code func (_check_signature func) ]} ]}.

(** The table after one successful registration on the empty table. *)
Definition registered (o : outcome (routes * callable)) : routes :=
  match o with Ok (self, _) => self | Raise _ => ∅ end.

(** The status and the body of the response of an invocation. *)
Definition status_of (r : option logrec * outcome envelope)
  : option string :=
  match r.2 with Ok env => Some (statusCode env) | Raise _ => None end.

Definition body_of (r : option logrec * outcome envelope)
  : option string :=
  match r.2 with Ok env => body env | Raise _ => None end.

(** A field of the log record flushed by an invocation. *)
Definition log_field (r : option logrec * outcome envelope) (k : string)
  : option value :=
  match r.1 with Some log => log !! k | None => None end.

End Samples.

(** * Properties *)

Section Properties.
Context `{Externals}.

(** ** Parameter injection *)

(** After the loop over [route.params.items()], a flagged name is bound to
    the injected object and any other name keeps what it had. *)
Lemma map_fold_inject_lookup request (params : gmap string param_cls)
    (kwargs : gmap string arg) name :
  map_fold (inject request) kwargs params !! name =
    match params !! name with
    | Some cls => Some (injected request cls)
    | None => kwargs !! name
    end.
Proof.
  apply (map_fold_weak_ind
    (fun (r : gmap string arg) (m : gmap string param_cls) =>
       r !! name = match m !! name with
                   | Some cls => Some (injected request cls)
                   | None => kwargs !! name
                   end)).
  - by rewrite lookup_empty.
  - intros i cls m r Hfresh IH.
    destruct (decide (i = name)) as [->|Hne].
    + rewrite lookup_insert_eq. destruct cls; simpl; by rewrite lookup_insert_eq.
    + rewrite lookup_insert_ne by done.
      destruct cls; simpl; by rewrite lookup_insert_ne.
Qed.

Lemma make_kwargs_lookup request route body name :
  make_kwargs request route body !! name =
    match _APIRoute.params route !! name with
    | Some cls => Some (injected request cls)
    | None => body_kwargs body !! name
    end.
Proof. apply map_fold_inject_lookup. Qed.

(** Once the route is found and the body is decoded, [_prepare_request]
    calls the route function with [make_kwargs]. *)
Lemma _prepare_request_found self (path method : string) event context
    path_routes route body :
  self !! path = Some path_routes ->
  path_routes !! method = Some route ->
  request_json (Request.mk event context) = Ok body ->
  _prepare_request self (VStr path) (VStr method) event context =
    let request := Request.mk event context in
    let? func :=
      call (_APIRoute.func route) (make_kwargs request route body) in
    Ok (request, JSONResponse VNone (_APIRoute.status_code route), func).
Proof.
  intros Hpath Hmethod Hbody. unfold _prepare_request. simpl.
  rewrite Hpath. simpl. rewrite Hmethod. simpl. rewrite Hbody. reflexivity.
Qed.

(** C1. When the decoded body is a mapping that has a field named like a
    parameter flagged for Request or Response injection, the route function
    is called with the request (respectively the response object) of the
    invocation under that name, and not with the body field. *)
Theorem injected_parameter_overrides_body_field self (path method : string)
    event context path_routes route (d : gmap string value) name cls v :
  self !! path = Some path_routes ->
  path_routes !! method = Some route ->
  request_json (Request.mk event context) = Ok (VDict d) ->
  d !! name = Some v ->
  _APIRoute.params route !! name = Some cls ->
  let request := Request.mk event context in
  let kwargs := make_kwargs request route (VDict d) in
  _prepare_request self (VStr path) (VStr method) event context =
    (let? func := call (_APIRoute.func route) kwargs in
     Ok (request, JSONResponse VNone (_APIRoute.status_code route), func))
  /\ kwargs !! name =
       Some (match cls with
             | ClsRequest => ArgRequest request
             | ClsResponse => ArgResponse
             end)
  /\ (forall w, kwargs !! name <> Some (ArgBody w))
  /\ (forall other, _APIRoute.params route !! other = None ->
        kwargs !! other = ArgBody <$> d !! other).
Proof.
  intros Hpath Hmethod Hbody Hfield Hflag request kwargs.
  split; [exact (_prepare_request_found _ _ _ _ _ _ _ _ Hpath Hmethod Hbody)|].
  assert (Hk : kwargs !! name = Some (injected request cls)).
  { unfold kwargs. rewrite make_kwargs_lookup, Hflag. reflexivity. }
  split; [rewrite Hk; by destruct cls|].
  split.
  - intros w. rewrite Hk. destruct cls; discriminate.
  - intros other Hother. unfold kwargs.
    rewrite make_kwargs_lookup, Hother. simpl. by rewrite lookup_fmap.
Qed.

(** C9. When the decoded body is absent ([None]) or is not a mapping, the
    step that merges the body raises nothing, no keyword argument comes
    from the body, and the route function is called with exactly the
    injected objects. *)
Theorem non_mapping_body_gives_only_injected self (path method : string)
    event context path_routes route body :
  self !! path = Some path_routes ->
  path_routes !! method = Some route ->
  request_json (Request.mk event context) = Ok body ->
  (forall d, body <> VDict d) ->
  let request := Request.mk event context in
  let kwargs := make_kwargs request route body in
  body_kwargs body = ∅
  /\ _prepare_request self (VStr path) (VStr method) event context =
       (let? func := call (_APIRoute.func route) kwargs in
        Ok (request, JSONResponse VNone (_APIRoute.status_code route), func))
  /\ (forall name,
        kwargs !! name = injected request <$> _APIRoute.params route !! name)
  /\ (forall name w, kwargs !! name <> Some (ArgBody w)).
Proof.
  intros Hpath Hmethod Hbody Hshape request kwargs.
  assert (Hempty : body_kwargs body = ∅).
  { destruct body; try reflexivity. by destruct (Hshape d). }
  assert (Hk : forall name,
    kwargs !! name = injected request <$> _APIRoute.params route !! name).
  { intros name. unfold kwargs. rewrite make_kwargs_lookup, Hempty.
    destruct (_APIRoute.params route !! name); [reflexivity|].
    by rewrite lookup_empty. }
  split; [exact Hempty|].
  split; [exact (_prepare_request_found _ _ _ _ _ _ _ _ Hpath Hmethod Hbody)|].
  split; [exact Hk|].
  intros name w. rewrite Hk.
  destruct (_APIRoute.params route !! name) as [[]|]; discriminate.
Qed.

(** ** The try block and its except clauses *)

Lemma try_block_handler_raises self method path event context log0 e log' :
  handler_raises self method path event context log0 e log' ->
  try_block self method path event context log0 = (log', Raise e).
Proof.
  intros Hraises. unfold try_block, bind, log_set, lift.
  destruct Hraises as
    [path_routes route body e Hpath Hmethod Hbody Hcall
    |request response func log1 log2 log3 e Hprep Hid Hua Hrun
    |request response func log1 log2 log3 Hprep Hid Hua Hrun].
  - unfold _prepare_request. rewrite Hpath. simpl. rewrite Hmethod. simpl.
    rewrite Hbody. simpl. rewrite Hcall. reflexivity.
  - rewrite Hprep, Hid, Hua. unfold _call_route_function. by rewrite Hrun.
  - rewrite Hprep, Hid, Hua. unfold _call_route_function. by rewrite Hrun.
Qed.

(** What the logging scope and the entry point do with the result of the
    [try] statement. *)
Lemma __call___returns self event context method path log env :
  _get_route_from_event event = Ok (method, path) ->
  try_statement self method path event context
    (logger_enter (aws_request_id context)) = (log, Ok env) ->
  __call__ self event context = (Some log, Ok env).
Proof.
  intros Hroute Htry. unfold __call__, _logger. by rewrite Hroute, Htry.
Qed.

Lemma __call___raises self event context method path log e :
  _get_route_from_event event = Ok (method, path) ->
  try_statement self method path event context
    (logger_enter (aws_request_id context)) = (log, Raise e) ->
  __call__ self event context =
    (Some (<["error_detail" := VStr (format_exc e)]>
             (<["level" := VStr "critical"]>
                (<["status_code" := VInt 500]> log))),
     Raise e).
Proof.
  intros Hroute Htry. unfold __call__, _logger. by rewrite Hroute, Htry.
Qed.

Lemma except_HTTPException_unfold exception log :
  except_HTTPException exception log =
    _prepare_response
      (JSONResponse (VDict {[ "detail" := detail exception ]})
         (HTTPException.status_code exception))
      (http_failure_log exception log).
Proof.
  unfold except_HTTPException, http_failure_log, bind, log_set, ret.
  destruct (error_detail exception) as [s|];
    [destruct (negb (String.eqb s ""))|];
    destruct (HTTPException.status_code exception >=? 500);
    destruct (HTTPException.status_code exception >=? 400); reflexivity.
Qed.

(** The envelope of a JSON response that has a mapping as content. *)
Lemma _prepare_response_JSON_dict (d : gmap string value) code log :
  _prepare_response (JSONResponse (VDict d) code) log =
    (<["status_code" := VInt code]> log,
     Ok {| body := Some (dumps (VDict d));
           statusCode := pretty code;
           headers :=
             (let hs :=
                <["content-type" := VStr "application/json"]>
                  (<["content-length" :=
                       VStr (pretty (len (Text (dumps (VDict d)))))]> ∅) in
              match (<["status_code" := VInt code]> log) !! "request_id" with
              | Some request_id => <["x-request-id" := request_id]> hs
              | None => hs
              end);
           isBase64Encoded := false |}).
Proof. reflexivity. Qed.

Lemma try_statement_http_failure self method path event context log0
    exception log' :
  try_block self method path event context log0
    = (log', Raise (HttpExc exception)) ->
  exists env,
    try_statement self method path event context log0 =
      (<["status_code" := VInt (HTTPException.status_code exception)]>
         (http_failure_log exception log'),
       Ok env)
    /\ statusCode env = pretty (HTTPException.status_code exception)
    /\ body env = Some (dumps (VDict {[ "detail" := detail exception ]}))
    /\ isBase64Encoded env = false.
Proof.
  intros Htry. unfold try_statement. rewrite Htry.
  rewrite except_HTTPException_unfold, _prepare_response_JSON_dict.
  eexists. split; [reflexivity|]. simpl. auto.
Qed.

(** C2. When the route function raises an exception that is neither an HTTP
    failure nor a validation failure, or when its coroutine times out, the
    entry point returns no response: neither [except] clause runs and the
    exception propagates out of the entry point. *)
Theorem unexpected_fault_propagates self event context method path e log' :
  _get_route_from_event event = Ok (method, path) ->
  unexpected e ->
  handler_raises self method path event context
    (logger_enter (aws_request_id context)) e log' ->
  try_statement self method path event context
    (logger_enter (aws_request_id context)) = (log', Raise e)
  /\ (__call__ self event context).2 = Raise e
  /\ (forall env, (__call__ self event context).2 <> Ok env)
  /\ (__call__ self event context).1 =
       Some (<["error_detail" := VStr (format_exc e)]>
               (<["level" := VStr "critical"]>
                  (<["status_code" := VInt 500]> log'))).
Proof.
  intros Hroute Hunexpected Hraises.
  apply try_block_handler_raises in Hraises.
  assert (Htry : try_statement self method path event context
            (logger_enter (aws_request_id context)) = (log', Raise e)).
  { unfold try_statement. rewrite Hraises.
    destruct e; simpl in Hunexpected; by try reflexivity. }
  rewrite (__call___raises _ _ _ _ _ _ _ Hroute Htry). simpl.
  repeat split; [exact Htry|discriminate].
Qed.

(** C5 (amended). When the route function raises an HTTP failure with status
    code C, the entry point returns a response with status C whose body is
    the mapping with the single field "detail".  The field is the reason
    phrase of C when no public detail was given, and also when the given
    detail is falsy (an empty string, zero, an empty collection); it is the
    given detail when that detail is truthy. *)
Theorem http_failure_body self event context method path exception log' :
  _get_route_from_event event = Ok (method, path) ->
  handler_raises self method path event context
    (logger_enter (aws_request_id context)) (HttpExc exception) log' ->
  let C := HTTPException.status_code exception in
  let given := HTTPException._detail exception in
  exists log env,
    __call__ self event context = (Some log, Ok env)
    /\ statusCode env = pretty C
    /\ (given = VNone ->
        body env =
          Some (dumps (VDict {[ "detail" := VStr (get_status_message C) ]})))
    /\ (truthy given = true ->
        body env = Some (dumps (VDict {[ "detail" := given ]})))
    /\ (truthy given = false ->
        body env =
          Some (dumps (VDict {[ "detail" := VStr (get_status_message C) ]}))).
Proof.
  intros Hroute Hraises C given.
  apply try_block_handler_raises in Hraises.
  destruct (try_statement_http_failure _ _ _ _ _ _ _ _ Hraises)
    as (env & Htry & Hstatus & Hbody & _).
  exists (<["status_code" := VInt C]> (http_failure_log exception log')), env.
  split; [exact (__call___returns _ _ _ _ _ _ _ Hroute Htry)|].
  split; [exact Hstatus|].
  rewrite Hbody. unfold detail. fold given. fold C.
  repeat split.
  - intros ->. reflexivity.
  - intros ->. reflexivity.
  - intros ->. reflexivity.
Qed.

(** C6 (amended). When the route function raises an HTTP failure, the level
    of the log record becomes "error" for a status code of 500 or more,
    "warning" for a code from 400 to 499, and is left as it was otherwise.
    The field "error_detail" is set to the text of the private detail when
    that is truthy, else to the text of the public detail when that is
    truthy, and is left as it was only when both are absent or falsy. *)
Theorem http_failure_log_fields self event context method path exception
    log' :
  _get_route_from_event event = Ok (method, path) ->
  handler_raises self method path event context
    (logger_enter (aws_request_id context)) (HttpExc exception) log' ->
  let C := HTTPException.status_code exception in
  let private := HTTPException._error_detail exception in
  let public := HTTPException._detail exception in
  exists log env,
    __call__ self event context = (Some log, Ok env)
    /\ log !! "status_code" = Some (VInt C)
    /\ (500 <= C -> log !! "level" = Some (VStr "error"))
    /\ (400 <= C < 500 -> log !! "level" = Some (VStr "warning"))
    /\ (C < 400 -> log !! "level" = log' !! "level")
    /\ (truthy private = true -> py_str private <> "" ->
        log !! "error_detail" = Some (VStr (py_str private)))
    /\ (truthy private = false -> truthy public = true ->
        py_str public <> "" ->
        log !! "error_detail" = Some (VStr (py_str public)))
    /\ (truthy private = false -> truthy public = false ->
        log !! "error_detail" = log' !! "error_detail").
Proof.
  intros Hroute Hraises C private public.
  apply try_block_handler_raises in Hraises.
  destruct (try_statement_http_failure _ _ _ _ _ _ _ _ Hraises)
    as (env & Htry & _).
  exists (<["status_code" := VInt C]> (http_failure_log exception log')), env.
  split; [exact (__call___returns _ _ _ _ _ _ _ Hroute Htry)|].
  split; [by rewrite lookup_insert_eq|].
  assert (Hlevel : forall log1 : logrec,
    (<["status_code" := VInt C]> log1) !! "level" = log1 !! "level").
  { intros log1. by rewrite lookup_insert_ne. }
  assert (Hdetail : forall log1 : logrec,
    (<["status_code" := VInt C]> log1) !! "error_detail"
      = log1 !! "error_detail").
  { intros log1. by rewrite lookup_insert_ne. }
  assert (Hkeep : forall log1 : logrec,
    (if C >=? 500 then <["level" := VStr "error"]>
                         (<["status_code" := VInt C]> log1)
     else if C >=? 400 then <["level" := VStr "warning"]>
                              (<["status_code" := VInt C]> log1)
     else <["status_code" := VInt C]> log1) !! "error_detail"
      = log1 !! "error_detail").
  { intros log1.
    destruct (C >=? 500); [|destruct (C >=? 400)];
      rewrite ?(lookup_insert_ne _ "level") by done;
      by rewrite lookup_insert_ne. }
  assert (Hnonempty : forall s, s <> "" -> negb (String.eqb s "") = true).
  { intros s Hs. destruct (String.eqb_spec s ""); [done|reflexivity]. }
  rewrite Hlevel, Hdetail. unfold http_failure_log. fold C.
  rewrite Hkeep. rewrite !Z.geb_leb.
  repeat split.
  - intros HC. destruct (Z.leb_spec 500 C); [|lia].
    by rewrite lookup_insert_eq.
  - intros HC. destruct (Z.leb_spec 500 C); [lia|].
    destruct (Z.leb_spec 400 C); [|lia]. by rewrite lookup_insert_eq.
  - intros HC. destruct (Z.leb_spec 500 C); [lia|].
    destruct (Z.leb_spec 400 C); [lia|].
    rewrite lookup_insert_ne by done.
    unfold error_detail. fold private. fold public.
    destruct (truthy private); [|destruct (truthy public)];
      try destruct (negb _); by rewrite ?lookup_insert_ne.
  - intros Hprivate Hstr. unfold error_detail. fold private.
    rewrite Hprivate, (Hnonempty _ Hstr). by rewrite lookup_insert_eq.
  - intros Hprivate Hpublic Hstr. unfold error_detail.
    fold private. fold public.
    rewrite Hprivate, Hpublic, (Hnonempty _ Hstr). by rewrite lookup_insert_eq.
  - intros Hprivate Hpublic. unfold error_detail. fold private. fold public.
    by rewrite Hprivate, Hpublic.
Qed.

(** ** Registration and routing *)

(** A successful registration found no route for the method under the path
    and stored the route there. *)
Lemma _api_route_ok self path method status_code func self' func' :
  _api_route self path method status_code func = Ok (self', func') ->
  func' = match _validate_arguments with
          | Some validate_arguments => validate_arguments func
          | None => func
          end
  /\ default ∅ (self !! path) !! method = None
  /\ self' =
       <[path :=
           <[method :=
               _APIRoute.mk (status_code_or_200 status_code) func'
                 (_check_signature func)]>
             (default ∅ (self !! path))]> self.
Proof.
  unfold _api_route. intros Hreg.
  destruct (self !! path) as [path_routes|] eqn:Hpath; simpl.
  - destruct (path_routes !! method) eqn:Hmethod; [discriminate|].
    by inversion Hreg.
  - rewrite lookup_empty in Hreg. inversion Hreg.
    by rewrite insert_insert_eq.
Qed.

(** On a fresh (path, method) pair, registration succeeds. *)
Lemma _api_route_fresh self path method status_code func :
  ~ has_route self path method ->
  exists self' func',
    _api_route self path method status_code func = Ok (self', func').
Proof.
  intros Hfresh. unfold _api_route.
  destruct (self !! path) as [path_routes|] eqn:Hpath.
  - destruct (path_routes !! method) as [route|] eqn:Hmethod; [|by eauto].
    destruct Hfresh. by exists path_routes, route.
  - rewrite lookup_empty. by eauto.
Qed.

(** Every path of a route table built by registration has a method. *)
Lemma registered_table_path_has_method self :
  registered_table self ->
  forall path path_routes,
    self !! path = Some path_routes ->
    exists method route, path_routes !! method = Some route.
Proof.
  induction 1 as [|self path0 method0 status_code func self' func' _ IH Hreg].
  - intros path path_routes Hpath. by rewrite lookup_empty in Hpath.
  - intros path path_routes Hpath.
    apply _api_route_ok in Hreg as (_ & _ & ->).
    destruct (decide (path0 = path)) as [->|Hne].
    + rewrite lookup_insert_eq in Hpath. inversion Hpath.
      eexists method0, _. by rewrite lookup_insert_eq.
    + rewrite lookup_insert_ne in Hpath by done. by eapply IH.
Qed.

(** [has_route] as a lookup. *)
Lemma has_route_lookup (self : routes) path method route :
  self !! path ≫= (fun path_routes => path_routes !! method) = Some route ->
  has_route self path method.
Proof.
  intros Hlookup. destruct (self !! path) as [path_routes|] eqn:Hpath;
    [|discriminate].
  by exists path_routes, route.
Qed.

Lemma not_has_route_lookup (self : routes) path method :
  self !! path ≫= (fun path_routes => path_routes !! method) = None ->
  ~ has_route self path method.
Proof.
  intros Hlookup (path_routes & route & Hpath & Hmethod).
  rewrite Hpath in Hlookup. simpl in Hlookup. congruence.
Qed.

Lemma try_block_route_missing self (method path : string) event context
    log0 :
  self !! path = None ->
  try_block self (VStr method) (VStr path) event context log0 =
    (<["path" := VStr path]> (<["method" := VStr method]> log0),
     Raise (HttpExc (HTTPException.of_code 404))).
Proof.
  intros Hpath. unfold try_block, bind, log_set, lift, _prepare_request.
  simpl. by rewrite Hpath.
Qed.

Lemma try_block_method_missing self (method path : string) event context
    log0 path_routes :
  self !! path = Some path_routes ->
  path_routes !! method = None ->
  try_block self (VStr method) (VStr path) event context log0 =
    (<["path" := VStr path]> (<["method" := VStr method]> log0),
     Raise (HttpExc (HTTPException.of_code 405))).
Proof.
  intros Hpath Hmethod.
  unfold try_block, bind, log_set, lift, _prepare_request.
  simpl. rewrite Hpath. simpl. by rewrite Hmethod.
Qed.

(** C3. For a route table built by registration and an event from which a
    method and a path are extracted, the entry point returns status "404"
    with body detail "Not Found" when the path is registered for no method,
    and status "405" with body detail "Method Not Allowed" when the path is
    registered, but not for the extracted method. *)
Theorem routing_failures_are_distinct self event context
    (method path : string) :
  get_status_message 404 = "Not Found" ->
  get_status_message 405 = "Method Not Allowed" ->
  registered_table self ->
  _get_route_from_event event = Ok (VStr method, VStr path) ->
  ((forall m, ~ has_route self path m) ->
   exists log env,
     __call__ self event context = (Some log, Ok env)
     /\ statusCode env = "404"
     /\ body env = Some (dumps (VDict {[ "detail" := VStr "Not Found" ]})))
  /\ ((exists m, has_route self path m) -> ~ has_route self path method ->
      exists log env,
        __call__ self event context = (Some log, Ok env)
        /\ statusCode env = "405"
        /\ body env =
             Some (dumps (VDict {[ "detail" := VStr "Method Not Allowed" ]}))).
Proof.
  intros H404 H405 Htable Hroute. split.
  - intros Hnone.
    assert (Hpath : self !! path = None).
    { destruct (self !! path) as [path_routes|] eqn:Hpath; [|done].
      destruct (registered_table_path_has_method _ Htable _ _ Hpath)
        as (m & route & Hm).
      destruct (Hnone m). by exists path_routes, route. }
    pose proof (try_block_route_missing self method path event context
                  (logger_enter (aws_request_id context)) Hpath) as Htry.
    destruct (try_statement_http_failure _ _ _ _ _ _ _ _ Htry)
      as (env & Hstmt & Hstatus & Hbody & _).
    eexists _, env.
    split; [exact (__call___returns _ _ _ _ _ _ _ Hroute Hstmt)|].
    split; [exact Hstatus|].
    rewrite Hbody. unfold detail. simpl. by rewrite H404.
  - intros (m & path_routes & route & Hpath & Hm) Hnot.
    assert (Hmethod : path_routes !! method = None).
    { destruct (path_routes !! method) as [route'|] eqn:Hmethod; [|done].
      destruct Hnot. by exists path_routes, route'. }
    pose proof (try_block_method_missing self method path event context
                  (logger_enter (aws_request_id context)) _ Hpath Hmethod)
      as Htry.
    destruct (try_statement_http_failure _ _ _ _ _ _ _ _ Htry)
      as (env & Hstmt & Hstatus & Hbody & _).
    eexists _, env.
    split; [exact (__call___returns _ _ _ _ _ _ _ Hroute Hstmt)|].
    split; [exact Hstatus|].
    rewrite Hbody. unfold detail. simpl. by rewrite H405.
Qed.

(** C8 (amended). On a fresh (path, method) pair, each of the seven
    registration methods succeeds and returns the callable it stored in the
    route table: the route function itself when no validator is installed,
    and the validating wrapper of the route function when one is. *)
Theorem registration_returns_stored_callable self path status_code func
    method register :
  (method, register) ∈ registration_methods ->
  ~ has_route self path method ->
  exists self' returned,
    register self path status_code func = Ok (self', returned)
    /\ returned = match _validate_arguments with
                  | Some validate_arguments => validate_arguments func
                  | None => func
                  end
    /\ (_validate_arguments = None -> returned = func)
    /\ (exists path_routes route,
          self' !! path = Some path_routes
          /\ path_routes !! method = Some route
          /\ _APIRoute.func route = returned
          /\ _APIRoute.status_code route = status_code_or_200 status_code
          /\ _APIRoute.params route = _check_signature func)
    /\ (forall other, other <> path -> self' !! other = self !! other).
Proof.
  intros Hin Hfresh.
  assert (Hop : register self path status_code func
                = _api_route self path method status_code func).
  { unfold registration_methods in Hin.
    repeat (apply elem_of_cons in Hin as [Hin|Hin];
            [by inversion Hin|]).
    by apply elem_of_nil in Hin. }
  destruct (_api_route_fresh self path method status_code func Hfresh)
    as (self' & returned & Hreg).
  exists self', returned. rewrite Hop. split; [exact Hreg|].
  apply _api_route_ok in Hreg as (Hret & _ & ->).
  split; [exact Hret|].
  split; [intros Hnone; by rewrite Hnone in Hret|].
  split.
  - eexists _, _. rewrite lookup_insert_eq. split; [reflexivity|].
    rewrite lookup_insert_eq. by split.
  - intros other Hother. by rewrite lookup_insert_ne.
Qed.

(** ** Event decoding *)

(** C7 (amended). When the request context of the event has no "http"
    entry, the method and the path are the "httpMethod" and "path" entries
    of the request context; entries of these names at the top level of the
    event are not read, and without them in the request context the
    extraction raises [KeyError].  When the request context has an "http"
    mapping, they are its "method" and "path" entries. *)
Theorem route_extraction_reads_request_context
    (event request_context : gmap string value) :
  event !! "requestContext" = Some (VDict request_context) ->
  (request_context !! "http" = None ->
   forall method path,
     request_context !! "httpMethod" = Some method ->
     request_context !! "path" = Some path ->
     _get_route_from_event (VDict event) = Ok (method, path))
  /\ (request_context !! "http" = None ->
      request_context !! "httpMethod" = None ->
      _get_route_from_event (VDict event)
        = Raise (KeyError (VStr "httpMethod")))
  /\ (forall http method path,
        request_context !! "http" = Some (VDict http) ->
        http !! "method" = Some method ->
        http !! "path" = Some path ->
        _get_route_from_event (VDict event) = Ok (method, path)).
Proof.
  intros Hcontext. unfold _get_route_from_event. simpl. rewrite Hcontext.
  simpl. repeat split.
  - intros Hhttp method path Hmethod Hpath.
    rewrite Hhttp. simpl. rewrite Hmethod. simpl. by rewrite Hpath.
  - intros Hhttp Hmethod. rewrite Hhttp. simpl. by rewrite Hmethod.
  - intros http method path Hhttp Hmethod Hpath.
    rewrite Hhttp. simpl. rewrite Hmethod. simpl. by rewrite Hpath.
Qed.

(** ** Envelope construction *)

(** C4 (amended). A response with absent content and status code 200 is
    given status 204 whatever the origin of the 200: the response that the
    route function leaves behind (seeded from the route, possibly with a
    status set by the route function) or the response it returns. *)
Theorem absent_content_200_becomes_204 (func : coroutine) response log log'
    response' content :
  func log response = Returned log' response' content ->
  let final :=
    match content with
    | RetResponse r => r
    | RetValue v => Response.set_content response' v
    end in
  Response.content final = VNone ->
  Response.status_code final = 200 ->
  exists env,
    _call_route_function func response log
      = (<["status_code" := VInt 204]> log', Ok env)
    /\ statusCode env = "204"
    /\ body env = None
    /\ _prepare_response final log'
         = (<["status_code" := VInt 204]> log', Ok env).
Proof.
  intros Hrun final Hcontent Hstatus.
  unfold _call_route_function. rewrite Hrun. fold final.
  unfold _prepare_response. rewrite Hcontent, Hstatus. simpl.
  eexists. split; [reflexivity|]. by simpl.
Qed.

(** C10. For a response with absent content whose status code S is not
    200 and is below 400, the envelope has no body, the decimal text of S
    as status, the base64 flag off, and the headers of the response, to
    which only the request identifier of the log record may be added:
    "content-length" and "content-type" are as they were. *)
Theorem absent_content_below_400_is_kept response log :
  Response.content response = VNone ->
  Response.status_code response <> 200 ->
  Response.status_code response < 400 ->
  let S := Response.status_code response in
  exists env,
    _prepare_response response log = (<["status_code" := VInt S]> log, Ok env)
    /\ body env = None
    /\ statusCode env = pretty S
    /\ isBase64Encoded env = false
    /\ headers env =
         match log !! "request_id" with
         | Some request_id =>
             <["x-request-id" := request_id]> (Response.headers response)
         | None => Response.headers response
         end
    /\ headers env !! "content-length"
         = Response.headers response !! "content-length"
    /\ headers env !! "content-type"
         = Response.headers response !! "content-type".
Proof.
  intros Hcontent Hnot200 Hbelow S.
  unfold _prepare_response. rewrite Hcontent. fold S. simpl.
  destruct (Z.eqb_spec S 200) as [Heq|_]; [by destruct Hnot200|].
  rewrite Z.geb_leb. destruct (Z.leb_spec 400 S) as [Hge|_]; [unfold S in Hge; lia|].
  simpl. rewrite lookup_insert_ne by done.
  eexists. split; [reflexivity|]. simpl.
  repeat split; destruct (log !! "request_id");
    by rewrite ?lookup_insert_ne.
Qed.

End Properties.

(** * The properties on concrete invocations *)

(** C1 on a request whose body tries to supply "request" and "response". *)
Lemma injected_parameter_overrides_body_field_witness :
  let H := Reference.plain in
  let event :=
    Samples.http_event "GET" "/"
      (VDict {[ "request" := VStr "spoof"; "other" := VInt 1 ]}) in
  let request := Request.mk event Samples.context in
  let route :=
    _APIRoute.mk 200 Samples.wants_both
      (_check_signature Samples.wants_both) in
  let kwargs :=
    make_kwargs request route
      (VDict {[ "request" := VStr "spoof"; "other" := VInt 1 ]}) in
  kwargs !! "request" = Some (ArgRequest request)
  /\ kwargs !! "request" <> Some (ArgBody (VStr "spoof"))
  /\ kwargs !! "other" = Some (ArgBody (VInt 1)).
Proof.
  intros H event request route kwargs.
  destruct (injected_parameter_overrides_body_field (H := H)
              (Samples.one_route "/" "GET" 200 Samples.wants_both)
              "/" "GET" event Samples.context
              {[ "GET" := route ]} route
              {[ "request" := VStr "spoof"; "other" := VInt 1 ]}
              "request" ClsRequest (VStr "spoof"))
    as (_ & Hbound & Hdropped & Hkept);
    [vm_compute; reflexivity ..|].
  split; [exact Hbound|]. split; [exact (Hdropped _)|].
  etrans; [apply (Hkept "other")|]; vm_compute; reflexivity.
Defined.

(** C9 on a request whose body is a JSON array. *)
Lemma non_mapping_body_gives_only_injected_witness :
  let H := Reference.plain in
  let event := Samples.http_event "GET" "/" (VList [VInt 1; VInt 2]) in
  let request := Request.mk event Samples.context in
  let route :=
    _APIRoute.mk 200 Samples.wants_both
      (_check_signature Samples.wants_both) in
  let kwargs := make_kwargs request route (VList [VInt 1; VInt 2]) in
  kwargs !! "request" = Some (ArgRequest request)
  /\ kwargs !! "response" = Some ArgResponse
  /\ kwargs !! "other" = None.
Proof.
  intros H event request route kwargs.
  destruct (non_mapping_body_gives_only_injected (H := H)
              (Samples.one_route "/" "GET" 200 Samples.wants_both)
              "/" "GET" event Samples.context
              {[ "GET" := route ]} route (VList [VInt 1; VInt 2]))
    as (_ & _ & Hk & _);
    [vm_compute; reflexivity ..|discriminate|].
  split; [|split]; (etrans; [apply Hk|]); vm_compute; reflexivity.
Defined.


(** The route function of [Samples.raises e], registered for GET "/",
    raises [e] while its coroutine runs. *)
Lemma sample_handler_raises (e : exn) :
  handler_raises (H := Reference.plain)
    (Samples.one_route "/" "GET" 200 (Samples.raises e))
    (VStr "GET") (VStr "/") (Samples.http_event "GET" "/" VNone)
    Samples.context
    (@logger_enter Reference.plain (aws_request_id Samples.context)) e
    (<["request_id" := VStr "req-1"]>
       (<["path" := VStr "/"]>
          (<["method" := VStr "GET"]>
             (@logger_enter Reference.plain
                (aws_request_id Samples.context))))).
Proof.
  set (log1 := <["request_id" := VStr "req-1"]> _).
  apply (raises_in_run _ _ _ _ _ _
           (Request.mk (Samples.http_event "GET" "/" VNone) Samples.context)
           (@JSONResponse Reference.plain VNone 200)
           (fun log _ => Raised log e) log1 log1 log1);
    vm_compute; reflexivity.
Defined.

(** C2 on a route function that raises [ValueError], as in the tests. *)
Lemma unexpected_fault_propagates_witness :
  (@__call__ Reference.plain
     (Samples.one_route "/" "GET" 200
        (Samples.raises (ValueError "Invalid value.")))
     (Samples.http_event "GET" "/" VNone) Samples.context).2
  = Raise (ValueError "Invalid value.").
Proof.
  refine (proj1 (proj2 (unexpected_fault_propagates (H := Reference.plain)
            (Samples.one_route "/" "GET" 200
               (Samples.raises (ValueError "Invalid value.")))
            (Samples.http_event "GET" "/" VNone) Samples.context
            (VStr "GET") (VStr "/") (ValueError "Invalid value.") _ _ I
            (sample_handler_raises (ValueError "Invalid value."))))).
  vm_compute; reflexivity.
Defined.

(** A route function that is still pending at the timeout: the entry
    point raises [TimeoutError]. *)
Example timeout_propagates :
  (@__call__ Reference.plain (Samples.one_route "/" "GET" 200 Samples.hangs)
     (Samples.http_event "GET" "/" VNone) Samples.context).2
  = Raise TimeoutError.
Proof. vm_compute; reflexivity. Qed.

(** C3 on the two routing failures of the tests. *)
Lemma routing_failures_are_distinct_witness :
  let H := Reference.plain in
  let self :=
    Samples.registered
      (Handler.get ∅ "/get_only" None (Samples.returns (VStr "get"))) in
  (exists log env,
     __call__ self (Samples.http_event "GET" "/not_exists" VNone)
       Samples.context = (Some log, Ok env)
     /\ statusCode env = "404"
     /\ body env =
          Some ("{" +:+ Reference.dq +:+ "detail" +:+ Reference.dq +:+ ":"
                +:+ Reference.dq +:+ "Not Found" +:+ Reference.dq +:+ "}"))
  /\ (exists log env,
        __call__ self (Samples.http_event "PUT" "/get_only" VNone)
          Samples.context = (Some log, Ok env)
        /\ statusCode env = "405"
        /\ body env =
             Some ("{" +:+ Reference.dq +:+ "detail" +:+ Reference.dq +:+ ":"
                   +:+ Reference.dq +:+ "Method Not Allowed" +:+ Reference.dq
                   +:+ "}")).
Proof.
  intros H self.
  assert (Htable : registered_table self).
  { apply (table_route ∅ "/get_only" "GET" None
             (Samples.returns (VStr "get")) self
             (Samples.returns (VStr "get")) table_init).
    vm_compute; reflexivity. }
  split.
  - refine (proj1 (routing_failures_are_distinct (H := H) self
              (Samples.http_event "GET" "/not_exists" VNone) Samples.context
              "GET" "/not_exists" eq_refl eq_refl Htable _) _).
    + vm_compute; reflexivity.
    + intros m. apply not_has_route_lookup. vm_compute; reflexivity.
  - refine (proj2 (routing_failures_are_distinct (H := H) self
              (Samples.http_event "PUT" "/get_only" VNone) Samples.context
              "PUT" "/get_only" eq_refl eq_refl Htable _) _ _).
    + vm_compute; reflexivity.
    + exists "GET".
      apply (has_route_lookup _ _ _
               (_APIRoute.mk 200 (Samples.returns (VStr "get")) ∅)).
      vm_compute; reflexivity.
    + apply not_has_route_lookup. vm_compute; reflexivity.
Defined.


(** C4 (amended) on a route registered with status 202 whose route
    function sets the status of the response to 200 and returns nothing. *)
Lemma absent_content_200_becomes_204_witness :
  let H := Reference.plain in
  let func : coroutine :=
    fun log response =>
      Returned log
        (Response.mk 200 (Response.headers response)
           (Response.content response) (Response.media_type response)
           (Response.render response))
        (RetValue VNone) in
  exists env,
    _call_route_function func (JSONResponse VNone 202) ∅
      = (<["status_code" := VInt 204]> ∅, Ok env)
    /\ statusCode env = "204"
    /\ body env = None.
Proof.
  intros H func.
  destruct (absent_content_200_becomes_204 (H := H) func
              (JSONResponse VNone 202) ∅ ∅
              (Response.mk 200 ∅ VNone (Some "application/json")
                 (fun v => Text (dumps v)))
              (RetValue VNone) eq_refl eq_refl eq_refl)
    as (env & Hcall & Hstatus & Hbody & _).
  exists env. auto.
Defined.

(** C4, as stated, fails: a route registered with the explicit status code
    200 whose route function returns nothing answers 204, and so does a
    route registered with 202 whose route function sets the status of the
    injected response to 200. *)
Lemma explicit_200_is_rewritten_to_204 :
  Samples.status_of
    (@__call__ Reference.plain
       (Samples.registered
          (@Handler.get Reference.plain ∅ "/" (Some 200)
             (Samples.returns VNone)))
       (Samples.http_event "GET" "/" VNone) Samples.context)
  = Some "204"
  /\ Samples.status_of
       (@__call__ Reference.plain
          (Samples.one_route "/" "GET" 202 (Samples.sets_status 200))
          (Samples.http_event "GET" "/" VNone) Samples.context)
     = Some "204".
Proof. split; vm_compute; reflexivity. Qed.

(** C5 (amended) on an HTTP failure with a public detail, as in the
    tests. *)
Lemma http_failure_body_witness :
  let H := Reference.plain in
  let exception :=
    HTTPException.mk 400 (VStr "Custom Error Message") None VNone in
  exists log env,
    __call__ (Samples.one_route "/" "GET" 200
                (Samples.raises (HttpExc exception)))
      (Samples.http_event "GET" "/" VNone) Samples.context
    = (Some log, Ok env)
    /\ statusCode env = "400"
    /\ body env =
         Some (dumps (VDict {[ "detail" := VStr "Custom Error Message" ]})).
Proof.
  intros H exception.
  destruct (http_failure_body (H := H)
              (Samples.one_route "/" "GET" 200
                 (Samples.raises (HttpExc exception)))
              (Samples.http_event "GET" "/" VNone) Samples.context
              (VStr "GET") (VStr "/") exception _
              ltac:(vm_compute; reflexivity)
              (sample_handler_raises (HttpExc exception)))
    as (log & env & Hcall & Hstatus & _ & Hgiven & _).
  exists log, env. split; [exact Hcall|]. split; [exact Hstatus|].
  exact (Hgiven eq_refl).
Defined.

(** C5, as stated, fails: an HTTP failure raised with the empty string as
    public detail is answered with the reason phrase, not with that
    detail. *)
Lemma empty_detail_is_replaced_by_reason_phrase :
  let response :=
    @__call__ Reference.plain
      (Samples.one_route "/" "GET" 200
         (Samples.raises
            (HttpExc (HTTPException.mk 400 (VStr "") None VNone))))
      (Samples.http_event "GET" "/" VNone) Samples.context in
  Samples.body_of response
    = Some (Reference.dumps (VDict {[ "detail" := VStr "Bad Request" ]}))
  /\ Samples.body_of response
     <> Some (Reference.dumps (VDict {[ "detail" := VStr "" ]})).
Proof. split; vm_compute; [reflexivity|discriminate]. Qed.


(** C6 (amended) on an HTTP failure 503 with a private detail only. *)
Lemma http_failure_log_fields_witness :
  let H := Reference.plain in
  let exception := HTTPException.mk 503 VNone None (VStr "pool exhausted") in
  exists log env,
    __call__ (Samples.one_route "/" "GET" 200
                (Samples.raises (HttpExc exception)))
      (Samples.http_event "GET" "/" VNone) Samples.context
    = (Some log, Ok env)
    /\ log !! "level" = Some (VStr "error")
    /\ log !! "error_detail" = Some (VStr "pool exhausted").
Proof.
  intros H exception.
  destruct (http_failure_log_fields (H := H)
              (Samples.one_route "/" "GET" 200
                 (Samples.raises (HttpExc exception)))
              (Samples.http_event "GET" "/" VNone) Samples.context
              (VStr "GET") (VStr "/") exception _
              ltac:(vm_compute; reflexivity)
              (sample_handler_raises (HttpExc exception)))
    as (log & env & Hcall & _ & Herror & _ & _ & Hprivate & _).
  exists log, env. split; [exact Hcall|].
  split; [apply Herror; vm_compute; discriminate|].
  apply Hprivate; [reflexivity|vm_compute; discriminate].
Defined.

(** C6, as stated, fails: for an HTTP failure that carries a public detail
    and no private detail, the log field "error_detail" is set, to the text
    of the public detail (the tests of the package expect this). *)
Lemma public_detail_is_logged_as_error_detail :
  let exception :=
    HTTPException.mk 400 (VStr "Custom Error Message") None VNone in
  let result :=
    @__call__ Reference.plain
      (Samples.one_route "/" "GET" 200 (Samples.raises (HttpExc exception)))
      (Samples.http_event "GET" "/" VNone) Samples.context in
  HTTPException._error_detail exception = VNone
  /\ Samples.log_field result "error_detail"
     = Some (VStr "Custom Error Message")
  /\ Samples.log_field result "error_detail" <> None.
Proof.
  intros exception result.
  split; [reflexivity|].
  split; [vm_compute; reflexivity|vm_compute; discriminate].
Qed.

(** C7 (amended) on a REST API event. *)
Lemma route_extraction_reads_request_context_witness :
  _get_route_from_event Samples.rest_event_two_levels
  = Ok (VStr "GET", VStr "/inner").
Proof.
  refine (proj1 (route_extraction_reads_request_context
            {[ "requestContext" :=
                 VDict {[ "httpMethod" := VStr "GET";
                          "path" := VStr "/inner";
                          "requestId" := VStr "req-1" ]};
               "httpMethod" := VStr "POST";
               "path" := VStr "/outer";
               "headers" := VDict ∅;
               "body" := VNone ]}
            {[ "httpMethod" := VStr "GET"; "path" := VStr "/inner";
               "requestId" := VStr "req-1" ]} _) _
            (VStr "GET") (VStr "/inner") _ _);
    vm_compute; reflexivity.
Defined.

(** C7, as stated, fails: on an event of the legacy shape whose top-level
    "httpMethod" and "path" differ from those of its request context, the
    request context wins; and when only the top level has them, the
    extraction raises. *)
Lemma top_level_method_and_path_are_not_read :
  _get_route_from_event Samples.rest_event_two_levels
    <> Ok (VStr "POST", VStr "/outer")
  /\ _get_route_from_event Samples.rest_event_two_levels
     = Ok (VStr "GET", VStr "/inner")
  /\ _get_route_from_event Samples.rest_event_top_level_only
     = Raise (KeyError (VStr "httpMethod")).
Proof.
  split; [vm_compute; discriminate|].
  split; vm_compute; reflexivity.
Qed.

(** C8 (amended) on GET "/" without a validator. *)
Lemma registration_returns_stored_callable_witness :
  let H := Reference.plain in
  exists self',
    Handler.get ∅ "/" None (Samples.returns (VStr "get"))
    = Ok (self', Samples.returns (VStr "get")).
Proof.
  intros H.
  destruct (registration_returns_stored_callable (H := H) ∅ "/" None
              (Samples.returns (VStr "get")) "GET" Handler.get)
    as (self' & returned & Hreg & _ & Hsame & _).
  - unfold registration_methods.
    apply elem_of_cons. right. apply elem_of_cons. by left.
  - apply not_has_route_lookup. vm_compute; reflexivity.
  - exists self'. rewrite (Hsame eq_refl) in Hreg. exact Hreg.
Defined.

(** C8, as stated, fails: with a validator installed, the registration
    method returns the validating wrapper, which is not the route function
    that was passed in: called with a string for [value], the wrapper
    raises a validation error and the route function does not. *)
Lemma registration_returns_the_validating_wrapper :
  exists self' returned,
    @Handler.get Reference.validating ∅ "/raise_422" None Samples.echo_value
      = Ok (self', returned)
    /\ call returned {[ "value" := ArgBody (VStr "a") ]}
       = Raise (ValidationError (VList [VStr "type_error.integer"]))
    /\ (forall e,
          call Samples.echo_value {[ "value" := ArgBody (VStr "a") ]}
          <> Raise e)
    /\ returned <> Samples.echo_value.
Proof.
  eexists _, _. split; [reflexivity|].
  split; [vm_compute; reflexivity|].
  split; [intros e; vm_compute; discriminate|].
  intros Heq.
  apply (f_equal (fun c : callable =>
           match call c {[ "value" := ArgBody (VStr "a") ]} with
           | Ok _ => true
           | Raise _ => false
           end)) in Heq.
  vm_compute in Heq. discriminate.
Qed.

(** C10 on a response seeded with status 202 whose content stays absent,
    with a request identifier in the log record. *)
Lemma absent_content_below_400_is_kept_witness :
  let H := Reference.plain in
  exists env,
    _prepare_response (JSONResponse VNone 202)
      {[ "request_id" := VStr "req-1" ]}
    = (<["status_code" := VInt 202]> {[ "request_id" := VStr "req-1" ]},
       Ok env)
    /\ body env = None
    /\ statusCode env = "202"
    /\ isBase64Encoded env = false
    /\ headers env = {[ "x-request-id" := VStr "req-1" ]}.
Proof.
  intros H.
  destruct (absent_content_below_400_is_kept (H := H)
              (JSONResponse VNone 202) {[ "request_id" := VStr "req-1" ]})
    as (env & Hcall & Hbody & Hstatus & Hflag & Hheaders & _);
    [reflexivity|discriminate|reflexivity|].
  exists env. split; [exact Hcall|]. split; [exact Hbody|].
  split; [exact Hstatus|]. split; [exact Hflag|].
  rewrite Hheaders. vm_compute; reflexivity.
Defined.


(** * The tests of the package, replayed on the model *)

(** [test_routing]: GET "/" returns the string "get". *)
Example test_routing_get :
  let result :=
    @__call__ Reference.plain
      (Samples.registered
         (@Handler.get Reference.plain ∅ "/" None
            (Samples.returns (VStr "get"))))
      (Samples.http_event "GET" "/" VNone) Samples.context in
  Samples.status_of result = Some "200"
  /\ Samples.body_of result = Some (Reference.dq +:+ "get" +:+ Reference.dq)
  /\ Samples.log_field result "level" = Some (VStr "info")
  /\ Samples.log_field result "status_code" = Some (VInt 200)
  /\ match result.2 with
     | Ok env =>
         headers env !! "content-type" = Some (VStr "application/json")
         /\ headers env !! "content-length" = Some (VStr "5")
         /\ isBase64Encoded env = false
     | Raise _ => False
     end.
Proof. vm_compute. repeat split; reflexivity. Qed.

(** [test_routing] with a REST API event ([version=1]). *)
Example test_routing_rest_api :
  Samples.status_of
    (@__call__ Reference.plain
       (Samples.one_route "/" "PATCH" 200 (Samples.returns (VStr "patch")))
       (Samples.rest_event "PATCH" "/") Samples.context)
  = Some "200".
Proof. vm_compute; reflexivity. Qed.

(** [test_routing]: registering OPTIONS "/" twice raises [ValueError]. *)
Example test_routing_duplicate :
  @Handler.options Reference.plain
    (Samples.one_route "/" "OPTIONS" 200 (Samples.returns (VStr "options")))
    "/" None (Samples.returns (VStr "options_duplicate"))
  = Raise (ValueError "Route already registered").
Proof. vm_compute; reflexivity. Qed.

(** [test_status_code]: a route function that returns nothing answers 204,
    a route registered with 202 answers 202. *)
Example test_status_code :
  Samples.status_of
    (@__call__ Reference.plain
       (Samples.one_route "/return_204" "GET" 200 (Samples.returns VNone))
       (Samples.http_event "GET" "/return_204" VNone) Samples.context)
  = Some "204"
  /\ Samples.status_of
       (@__call__ Reference.plain
          (Samples.registered
             (@Handler.get Reference.plain ∅ "/return_202" (Some 202)
                (Samples.returns (VStr "test"))))
          (Samples.http_event "GET" "/return_202" VNone) Samples.context)
     = Some "202".
Proof. split; vm_compute; reflexivity. Qed.

(** [test_inject_response]: the route function sets status 401 on the
    injected response and returns nothing. *)
Example test_inject_response_401 :
  let result :=
    @__call__ Reference.plain
      (Samples.registered
         (@Handler.get Reference.plain ∅ "/401" None
            (Samples.sets_status 401)))
      (Samples.http_event "GET" "/401" VNone) Samples.context in
  Samples.status_of result = Some "401"
  /\ Samples.body_of result
     = Some (Reference.dumps (VDict {[ "details" := VStr "Unauthorized" ]})).
Proof. split; vm_compute; reflexivity. Qed.

(** [test_exception_handling]: a string for [value: int] answers 422. *)
Example test_validation_422 :
  let result :=
    @__call__ Reference.validating
      (Samples.registered
         (@Handler.get Reference.validating ∅ "/raise_422" None
            Samples.echo_value))
      (Samples.http_event "GET" "/raise_422"
         (VDict {[ "value" := VStr "a" ]}))
      Samples.context in
  Samples.status_of result = Some "422"
  /\ Samples.log_field result "level" = Some (VStr "warning").
Proof. split; vm_compute; reflexivity. Qed.

(** [test_binary_body]: bytes are base64-encoded in the envelope. *)
Example test_binary_body :
  let result :=
    @__call__ Reference.plain
      (Samples.one_route "/" "POST" 200
         (Samples.returns_binary (String.list_byte_of_string "test")))
      (Samples.http_event "POST" "/" VNone) Samples.context in
  Samples.status_of result = Some "200"
  /\ Samples.body_of result = Some "dGVzdA=="
  /\ match result.2 with
     | Ok env =>
         isBase64Encoded env = true
         /\ headers env !! "content-length" = Some (VStr "4")
     | Raise _ => False
     end.
Proof. vm_compute. repeat split; reflexivity. Qed.

(** A body that names the injected parameters does not reach them: the
    route function of [Samples.wants_both] checks what it receives. *)
Example spoofed_body_is_overridden :
  Samples.status_of
    (@__call__ Reference.plain
       (Samples.registered
          (@Handler.post Reference.plain ∅ "/" None Samples.wants_both))
       (Samples.http_event "POST" "/"
          (VDict {[ "request" := VStr "spoof"; "response" := VInt 0 ]}))
       Samples.context)
  = Some "204".
Proof. vm_compute; reflexivity. Qed.


(** * Further properties of registration *)

Section Registration.
Context `{Externals}.

(** Each registration method is [_api_route] at its HTTP method. *)
Lemma registration_methods_unfold method register self path status_code
    func :
  (method, register) ∈ registration_methods ->
  register self path status_code func
  = _api_route self path method status_code func.
Proof.
  unfold registration_methods. intros Hin.
  repeat (apply elem_of_cons in Hin as [Hin|Hin]; [by inversion Hin|]).
  by apply elem_of_nil in Hin.
Qed.

(** [_api_route] as a function of the lookup of the pair. *)
Lemma _api_route_eq self path method status_code func :
  _api_route self path method status_code func =
    match lookup_route self path method with
    | Some _ => Raise (ValueError "Route already registered")
    | None =>
        Ok (<[path :=
                <[method :=
                    _APIRoute.mk (status_code_or_200 status_code)
                      (validated func) (_check_signature func)]>
                  (default ∅ (self !! path))]> self,
            validated func)
    end.
Proof.
  unfold _api_route, lookup_route, validated.
  destruct (self !! path) as [path_routes|] eqn:Hpath; simpl.
  - by destruct (path_routes !! method).
  - rewrite lookup_empty. by rewrite insert_insert_eq.
Qed.

Lemma lookup_route_insert (self : routes) path method route p m :
  lookup_route
    (<[path := <[method := route]> (default ∅ (self !! path))]> self) p m
  = if decide (p = path /\ m = method) then Some route
    else lookup_route self p m.
Proof.
  unfold lookup_route.
  destruct (decide (p = path)) as [->|Hp].
  - rewrite lookup_insert_eq. simpl.
    destruct (decide (m = method)) as [->|Hm].
    + rewrite lookup_insert_eq. by rewrite decide_True.
    + rewrite lookup_insert_ne by done. rewrite decide_False by tauto.
      destruct (self !! path); simpl; [done|by rewrite lookup_empty].
  - rewrite lookup_insert_ne by done. by rewrite decide_False by tauto.
Qed.

Lemma has_route_iff_lookup_route self path method :
  has_route self path method <-> is_Some (lookup_route self path method).
Proof.
  unfold has_route, lookup_route. split.
  - intros (path_routes & route & -> & Hm). simpl. by rewrite Hm.
  - intros [route Hroute].
    destruct (self !! path) as [path_routes|]; [|discriminate].
    by exists path_routes, route.
Qed.

(** X1. Registering a (path, method) pair that already has a route raises
    [ValueError], with each of the seven registration methods and whatever
    the status code and the route function. *)
Theorem duplicate_registration_raises self path status_code func method
    register :
  (method, register) ∈ registration_methods ->
  has_route self path method ->
  exists msg, register self path status_code func = Raise (ValueError msg).
Proof.
  intros Hin Hroute.
  rewrite (registration_methods_unfold _ _ _ _ _ _ Hin), _api_route_eq.
  apply has_route_iff_lookup_route in Hroute as [route ->]. by eexists.
Qed.

(** X2. After a successful registration the pair resolves to the new route,
    which holds the returned callable, the status code (200 when none or 0
    was given) and the parameters to inject; every other pair resolves as
    before. *)
Theorem registration_then_lookup self path status_code func method register
    self' func' :
  (method, register) ∈ registration_methods ->
  register self path status_code func = Ok (self', func') ->
  lookup_route self' path method
    = Some (_APIRoute.mk (status_code_or_200 status_code) func'
              (_check_signature func))
  /\ (forall p m, (p, m) <> (path, method) ->
        lookup_route self' p m = lookup_route self p m).
Proof.
  intros Hin Hreg.
  rewrite (registration_methods_unfold _ _ _ _ _ _ Hin), _api_route_eq in Hreg.
  destruct (lookup_route self path method); [discriminate|].
  inversion Hreg; subst. split.
  - rewrite lookup_route_insert. by rewrite decide_True.
  - intros p m Hne. rewrite lookup_route_insert.
    rewrite decide_False; [done|]. intros [-> ->]. by destruct Hne.
Qed.

(** X3. Two registrations commute: if registering a first pair and then a
    second one succeeds, registering them in the other order succeeds too,
    returns the same callables and builds the same route table. *)
Theorem registrations_commute self p1 m1 s1 f1 p2 m2 s2 f2 t1 g1 t12 g2 :
  _api_route self p1 m1 s1 f1 = Ok (t1, g1) ->
  _api_route t1 p2 m2 s2 f2 = Ok (t12, g2) ->
  exists t2,
    _api_route self p2 m2 s2 f2 = Ok (t2, g2)
    /\ _api_route t2 p1 m1 s1 f1 = Ok (t12, g1).
Proof.
  rewrite !_api_route_eq. intros H1 H2.
  destruct (lookup_route self p1 m1) eqn:Hl1; [discriminate|].
  inversion H1; subst t1 g1; clear H1.
  rewrite lookup_route_insert in H2.
  destruct (decide (p2 = p1 /\ m2 = m1)) as [|Hne]; [discriminate|].
  destruct (lookup_route self p2 m2) eqn:Hl2; [discriminate|].
  inversion H2; subst t12 g2; clear H2.
  eexists. split; [reflexivity|].
  rewrite _api_route_eq, lookup_route_insert.
  rewrite decide_False by (intros [-> ->]; by destruct Hne).
  rewrite Hl1. f_equal. f_equal.
  destruct (decide (p1 = p2)) as [->|Hp].
  - rewrite !lookup_insert_eq. simpl. rewrite !insert_insert_eq.
    f_equal. apply insert_insert_ne. intros ->. by destruct Hne.
  - rewrite !(lookup_insert_ne _ p2 p1) by done.
    rewrite !(lookup_insert_ne _ p1 p2) by done.
    by apply insert_insert_ne.
Qed.

(** X4. For a signature with distinct parameter names, [_check_signature]
    flags a parameter annotated with a Request class for request injection
    and one annotated with a Response class for response injection; a
    parameter with any other annotation, and a name that is no parameter,
    are not flagged. *)
Theorem _check_signature_flags_by_annotation func name :
  NoDup (parameters func).*1 ->
  (forall a, (name, a) ∈ parameters func ->
     _check_signature func !! name = cls_of_annotation a)
  /\ (name ∉ (parameters func).*1 -> _check_signature func !! name = None).
Proof.
  unfold _check_signature. generalize (parameters func) as l.
  induction l as [|[n a] l IH] using rev_ind; intros Hnodup.
  - split; [intros a Hin; by apply elem_of_nil in Hin|done].
  - rewrite fmap_app in Hnodup. simpl in Hnodup.
    apply NoDup_app in Hnodup as (Hl & Hfresh & _).
    destruct (IH Hl) as [IHin IHout].
    assert (Hn : n ∉ l.*1).
    { intros Hin. apply (Hfresh n Hin). by left. }
    rewrite foldl_app. simpl.
    destruct (decide (n = name)) as [->|Hne].
    + split.
      * intros a' Hin. apply elem_of_app in Hin as [Hin|Hin].
        { destruct Hn. by apply (list_elem_of_fmap_2 fst) in Hin. }
        apply list_elem_of_singleton in Hin. inversion Hin; subst a'.
        destruct a; simpl; rewrite ?lookup_insert_eq; [done|done|].
        by apply IHout.
      * intros Hout. destruct Hout. rewrite fmap_app.
        apply elem_of_app. right. by left.
    + assert (Hstep : forall params : gmap string param_cls,
        match a with
        | AnnRequest => <[n := ClsRequest]> params
        | AnnResponse => <[n := ClsResponse]> params
        | AnnOther => params
        end !! name = params !! name).
      { intros params. destruct a; by rewrite ?lookup_insert_ne. }
      rewrite Hstep. split.
      * intros a' Hin. apply elem_of_app in Hin as [Hin|Hin];
          [by apply IHin|].
        apply list_elem_of_singleton in Hin. by inversion Hin.
      * intros Hout. apply IHout. intros Hin. apply Hout.
        rewrite fmap_app. apply elem_of_app. by left.
Qed.

(** X5. Every route of a table built by registration has a status code
    other than 0, holds the callable the decorator returned for some
    route function, and injects exactly the parameters flagged in the
    signature of that route function. *)
Theorem registered_table_routes self :
  registered_table self ->
  forall path method route,
    lookup_route self path method = Some route ->
    _APIRoute.status_code route <> 0
    /\ exists func,
         _APIRoute.func route = validated func
         /\ _APIRoute.params route = _check_signature func.
Proof.
  induction 1 as [|self path0 method0 status_code func self' func' _ IH Hreg].
  - intros path method route Hroute. unfold lookup_route in Hroute.
    by rewrite lookup_empty in Hroute.
  - intros path method route Hroute.
    rewrite _api_route_eq in Hreg.
    destruct (lookup_route self path0 method0); [discriminate|].
    inversion Hreg; subst self' func'; clear Hreg.
    rewrite lookup_route_insert in Hroute.
    destruct (decide (path = path0 /\ method = method0)); [|by eapply IH].
    inversion Hroute; subst route; simpl. split; [|by exists func].
    unfold status_code_or_200.
    destruct status_code as [c|]; [|done].
    destruct (Z.eqb_spec c 0); [done|done].
Qed.

End Registration.

(** * Further properties of the envelope construction *)

Section Envelope.
Context `{Externals}.

(** Lookups in the headers of an envelope, by cases on the request
    identifier of the log record and on the media type. *)
Ltac header_lookup :=
  rewrite ?(lookup_insert_ne _ "status_code" "request_id") by done;
  destruct (_ !! "request_id");
  try destruct (Response.media_type _);
  repeat (rewrite lookup_insert_eq || rewrite lookup_insert_ne by done);
  done.

(** The envelope of a response that has a content. *)
Lemma _prepare_response_content response log :
  Response.content response <> VNone ->
  _prepare_response response log =
    (let r := Response.render response (Response.content response) in
     let hs :=
       <["content-length" := VStr (pretty (len r))]>
         (Response.headers response) in
     let hs :=
       match Response.media_type response with
       | Some media_type => <["content-type" := VStr media_type]> hs
       | None => hs
       end in
     (<["status_code" := VInt (Response.status_code response)]> log,
      Ok {| body := Some (envelope_body r);
            statusCode := pretty (Response.status_code response);
            headers :=
              match log !! "request_id" with
              | Some request_id => <["x-request-id" := request_id]> hs
              | None => hs
              end;
            isBase64Encoded := is_binary r |})).
Proof.
  intros Hcontent.
  assert (Hnone : is_none (Response.content response) = false).
  { by destruct (Response.content response). }
  unfold _prepare_response. rewrite Hnone. simpl. rewrite Hnone.
  rewrite (lookup_insert_ne _ "status_code" "request_id") by done.
  by destruct (Response.render response (Response.content response)).
Qed.

(** X6. A response with absent content and a status code S of 400 or more
    gets the synthesized content {"details": reason phrase of S} (the key
    is "details"), which is rendered like any content; the status stays
    S. *)
Theorem absent_content_error_status_gets_details response log :
  Response.content response = VNone ->
  400 <= Response.status_code response ->
  let S := Response.status_code response in
  let r :=
    Response.render response
      (VDict {[ "details" := VStr (get_status_message S) ]}) in
  exists env,
    _prepare_response response log = (<["status_code" := VInt S]> log, Ok env)
    /\ statusCode env = pretty S
    /\ body env = Some (envelope_body r)
    /\ isBase64Encoded env = is_binary r
    /\ headers env !! "content-length" = Some (VStr (pretty (len r))).
Proof.
  intros Hcontent Hge S r.
  unfold _prepare_response. rewrite Hcontent. fold S. simpl.
  destruct (Z.eqb_spec S 200) as [Heq|_]; [unfold S in Heq; lia|].
  rewrite Z.geb_leb. destruct (Z.leb_spec 400 S) as [_|Hlt];
    [|unfold S in Hlt; lia].
  simpl. fold r.
  destruct r; eexists; (split; [reflexivity|]); simpl; (repeat split);
    header_lookup.
Qed.

(** X7. A response with a content is rendered with its status unchanged (a
    200 stays 200).  Text passes through with the base64 flag off; bytes
    are base64-encoded with the flag on.  The header "content-length" is
    the length of the rendered body before any base64 encoding, and
    "content-type" is the media type when there is one and is left as it
    was otherwise. *)
Theorem present_content_is_rendered response log :
  Response.content response <> VNone ->
  let S := Response.status_code response in
  let r := Response.render response (Response.content response) in
  exists env,
    _prepare_response response log = (<["status_code" := VInt S]> log, Ok env)
    /\ statusCode env = pretty S
    /\ body env = Some (envelope_body r)
    /\ isBase64Encoded env = is_binary r
    /\ headers env !! "content-length" = Some (VStr (pretty (len r)))
    /\ headers env !! "content-type"
       = match Response.media_type response with
         | Some media_type => Some (VStr media_type)
         | None => Response.headers response !! "content-type"
         end.
Proof.
  intros Hcontent S r.
  assert (Hnone : is_none (Response.content response) = false).
  { by destruct (Response.content response). }
  unfold _prepare_response. rewrite Hnone. simpl. rewrite Hnone.
  fold S. fold r.
  destruct r; eexists; (split; [reflexivity|]); simpl;
    (split; [done|]); (split; [done|]); (split; [done|]);
    split; header_lookup.
Qed.

(** Envelope construction always returns an envelope. *)
Lemma logged_envelope_exists response log :
  exists n env,
    _prepare_response response log = (<["status_code" := VInt n]> log, Ok env).
Proof.
  unfold _prepare_response.
  destruct (Response.content response); simpl;
    [destruct (Response.status_code response =? 200); simpl;
       [|destruct (Response.status_code response >=? 400); simpl;
         [destruct (Response.render response _)|]]
    |destruct (Response.render response _)..];
    by eexists _, _.
Qed.


End Envelope.

(** * Further properties of the dispatch *)

Section Dispatch.
Context `{Externals}.

Lemma getitem_raises_unexpected d k e :
  getitem d k = Raise e -> unexpected e.
Proof.
  unfold getitem. destruct d; try (intros [= <-]; exact I).
  destruct (d !! k); [discriminate|]. intros [= <-]. exact I.
Qed.

Lemma try_block_handler_returns self method path event context log0
    response' content log' :
  handler_returns self method path event context log0 response' content
    log' ->
  try_block self method path event context log0 =
    _prepare_response
      match content with
      | RetResponse r => r
      | RetValue v => Response.set_content response' v
      end log'.
Proof.
  intros [request response func log1 log2 log3 r' c Hprep Hid Hua Hrun].
  unfold try_block, bind, log_set, lift.
  rewrite Hprep, Hid, Hua. unfold _call_route_function. by rewrite Hrun.
Qed.

Lemma try_statement_of_returned self method path event context log0 log
    env :
  try_block self method path event context log0 = (log, Ok env) ->
  try_statement self method path event context log0 = (log, Ok env).
Proof. intros Htry. unfold try_statement. by rewrite Htry. Qed.

(** The request identifier survives the statements of the
    [except HTTPException] clause. *)
Lemma http_failure_log_request_id exception (log : logrec) :
  (<["status_code" := VInt (HTTPException.status_code exception)]>
     (http_failure_log exception log)) !! "request_id"
  = log !! "request_id".
Proof.
  unfold http_failure_log.
  rewrite lookup_insert_ne by done.
  destruct (HTTPException.status_code exception >=? 500);
    [|destruct (HTTPException.status_code exception >=? 400)];
    rewrite ?(lookup_insert_ne _ "level") by done;
    rewrite (lookup_insert_ne _ "status_code") by done;
    destruct (error_detail exception) as [s|];
    try destruct (negb (String.eqb s ""));
    by rewrite ?lookup_insert_ne by done.
Qed.

(** X9. When the route function raises a validation failure, the entry
    point answers 422 with the body {"detail": errors}, and the log record
    gets status 422, level "warning" and the serialized errors as
    "error_detail". *)
Theorem validation_failure_response self event context method path errors
    log' :
  _get_route_from_event event = Ok (method, path) ->
  handler_raises self method path event context
    (logger_enter (aws_request_id context)) (ValidationError errors) log' ->
  exists log env,
    __call__ self event context = (Some log, Ok env)
    /\ statusCode env = "422"
    /\ body env = Some (dumps (VDict {[ "detail" := errors ]}))
    /\ isBase64Encoded env = false
    /\ log !! "status_code" = Some (VInt 422)
    /\ log !! "level" = Some (VStr "warning")
    /\ log !! "error_detail" = Some (VStr (dumps errors)).
Proof.
  intros Hroute Hraises. apply try_block_handler_raises in Hraises.
  eexists _, _. split.
  - eapply __call___returns; [exact Hroute|].
    unfold try_statement. rewrite Hraises.
    unfold except_ValidationError, bind, log_set. simpl.
    apply _prepare_response_JSON_dict.
  - simpl. repeat split.
    + by rewrite lookup_insert_eq.
    + rewrite lookup_insert_ne by done. by rewrite lookup_insert_eq.
    + rewrite !lookup_insert_ne by done. by rewrite lookup_insert_eq.
Qed.

(** X10. An event without "requestContext", and an event whose request
    context has an "http" mapping without "method" (even when the legacy
    "httpMethod" and "path" entries are there), make the entry point raise
    [KeyError] before the logging scope opens: no log record is written
    and no response is built. *)
Theorem malformed_event_raises_before_logging self context
    (event : gmap string value) :
  (event !! "requestContext" = None ->
   __call__ self (VDict event) context
   = (None, Raise (KeyError (VStr "requestContext"))))
  /\ (forall request_context http,
        event !! "requestContext" = Some (VDict request_context) ->
        request_context !! "http" = Some (VDict http) ->
        http !! "method" = None ->
        __call__ self (VDict event) context
        = (None, Raise (KeyError (VStr "method")))).
Proof.
  split.
  - intros Hcontext. unfold __call__, _get_route_from_event. simpl.
    by rewrite Hcontext.
  - intros request_context http Hcontext Hhttp Hmethod.
    unfold __call__, _get_route_from_event. simpl. rewrite Hcontext. simpl.
    rewrite Hhttp. simpl. by rewrite Hmethod.
Qed.

(** X11. The request identifier of the log record is the "x-request-id"
    header when the request has one; only when that header is absent is it
    the "requestId" of the request context of the event; and when both are
    absent the exception of the second lookup is raised, with the log
    record unchanged. *)
Theorem request_id_precedence request event (log : logrec) :
  (forall v,
     request_headers request "x-request-id" = Ok v ->
     set_request_id request event log = (<["request_id" := v]> log, Ok tt))
  /\ (forall k v,
        request_headers request "x-request-id" = Raise (KeyError k) ->
        (let? request_context := getitem event "requestContext" in
         getitem request_context "requestId") = Ok v ->
        set_request_id request event log
        = (<["request_id" := v]> log, Ok tt))
  /\ (forall k e,
        request_headers request "x-request-id" = Raise (KeyError k) ->
        (let? request_context := getitem event "requestContext" in
         getitem request_context "requestId") = Raise e ->
        set_request_id request event log = (log, Raise e)
        /\ unexpected e).
Proof.
  unfold set_request_id, try_KeyError, bind, lift, log_set.
  split; [|split].
  - intros v ->. reflexivity.
  - intros k v -> ->. reflexivity.
  - intros k e -> Hevent. rewrite Hevent.
    assert (Hunexpected : unexpected e).
    { destruct (getitem event "requestContext") as [rc|e'] eqn:Hrc;
        simpl in Hevent.
      - exact (getitem_raises_unexpected _ _ _ Hevent).
      - inversion Hevent; subst e'.
        exact (getitem_raises_unexpected _ _ _ Hrc). }
    split; [reflexivity|exact Hunexpected].
Qed.

(** X12. A request with neither an "x-request-id" header nor a "requestId"
    in the request context of its event is a fault, even though its route
    exists and the call of the route function succeeded: the coroutine is
    not run, the exception of the lookup propagates, and the log record is
    closed with status 500 and level "critical". *)
Theorem missing_request_id_is_a_fault self event context method path
    request response func k e :
  _get_route_from_event event = Ok (method, path) ->
  _prepare_request self path method event context
    = Ok (request, response, func) ->
  request_headers request "x-request-id" = Raise (KeyError k) ->
  (let? request_context := getitem event "requestContext" in
   getitem request_context "requestId") = Raise e ->
  __call__ self event context =
    (Some (<["error_detail" := VStr (format_exc e)]>
             (<["level" := VStr "critical"]>
                (<["status_code" := VInt 500]>
                   (<["path" := path]>
                      (<["method" := method]>
                         (logger_enter (aws_request_id context))))))),
     Raise e).
Proof.
  intros Hroute Hprep Hheader Hevent.
  apply (__call___raises _ _ _ _ _ _ _ Hroute).
  assert (Hunexpected : unexpected e).
  { destruct (getitem event "requestContext") as [rc|e'] eqn:Hrc;
      simpl in Hevent.
    - exact (getitem_raises_unexpected _ _ _ Hevent).
    - inversion Hevent; subst e'.
      exact (getitem_raises_unexpected _ _ _ Hrc). }
  unfold try_statement, try_block, bind, log_set, lift.
  rewrite Hprep. unfold set_request_id, try_KeyError, bind, lift.
  rewrite Hheader, Hevent. by destruct e.
Qed.

(** X13. When the route function returns a value other than [None], the
    entry point answers with the status of the response object as the
    route function left it, and with that value rendered by the response
    as body; the log record of the route function gets this status, and
    the header "x-request-id" is the request identifier of that log
    record. *)
Theorem returned_value_is_rendered self event context method path response'
    v log' :
  _get_route_from_event event = Ok (method, path) ->
  handler_returns self method path event context
    (logger_enter (aws_request_id context)) response' (RetValue v) log' ->
  v <> VNone ->
  let r := Response.render response' v in
  exists env,
    __call__ self event context
    = (Some (<["status_code" := VInt (Response.status_code response')]> log'),
       Ok env)
    /\ statusCode env = pretty (Response.status_code response')
    /\ body env = Some (envelope_body r)
    /\ isBase64Encoded env = is_binary r
    /\ headers env !! "x-request-id"
       = match log' !! "request_id" with
         | Some request_id => Some request_id
         | None => Response.headers response' !! "x-request-id"
         end.
Proof.
  intros Hroute Hreturns Hv r.
  apply try_block_handler_returns in Hreturns.
  rewrite _prepare_response_content in Hreturns by exact Hv.
  simpl in Hreturns. fold r in Hreturns.
  eexists. split.
  - eapply __call___returns; [exact Hroute|].
    apply try_statement_of_returned. exact Hreturns.
  - simpl. repeat split.
    destruct (log' !! "request_id"); [by rewrite lookup_insert_eq|].
    destruct (Response.media_type response');
      by rewrite ?lookup_insert_ne by done.
Qed.

(** X14. When the route function returns a [Response], the envelope is
    built from that response alone: the response object seeded from the
    route, and whatever the route function did to it, plays no part. *)
Theorem returned_response_replaces_seeded self event context method path
    response' returned log' :
  _get_route_from_event event = Ok (method, path) ->
  handler_returns self method path event context
    (logger_enter (aws_request_id context)) response' (RetResponse returned)
    log' ->
  __call__ self event context =
    (Some (_prepare_response returned log').1,
     (_prepare_response returned log').2).
Proof.
  intros Hroute Hreturns.
  apply try_block_handler_returns in Hreturns.
  destruct (logged_envelope_exists returned log') as (n & env & Hprep).
  rewrite Hprep in Hreturns |- *. simpl.
  eapply __call___returns; [exact Hroute|].
  by apply try_statement_of_returned.
Qed.

(** X15. The envelope of an HTTP failure has exactly the headers
    "content-type" (application/json), "content-length" (the length of its
    body) and, when the log record has a request identifier,
    "x-request-id"; the headers given to the [HTTPException] are not
    copied to it. *)
Theorem http_failure_envelope_headers self event context method path
    exception log' :
  _get_route_from_event event = Ok (method, path) ->
  handler_raises self method path event context
    (logger_enter (aws_request_id context)) (HttpExc exception) log' ->
  let text := dumps (VDict {[ "detail" := detail exception ]}) in
  exists log env,
    __call__ self event context = (Some log, Ok env)
    /\ body env = Some text
    /\ isBase64Encoded env = false
    /\ headers env =
         let hs : gmap string value :=
           <["content-type" := VStr "application/json"]>
             (<["content-length" :=
                  VStr (pretty (Z.of_nat (String.length text)))]> ∅) in
         match log' !! "request_id" with
         | Some request_id => <["x-request-id" := request_id]> hs
         | None => hs
         end.
Proof.
  intros Hroute Hraises text. apply try_block_handler_raises in Hraises.
  eexists _, _. split.
  - eapply __call___returns; [exact Hroute|].
    unfold try_statement. rewrite Hraises.
    rewrite except_HTTPException_unfold.
    apply _prepare_response_JSON_dict.
  - simpl. split; [reflexivity|]. split; [reflexivity|].
    by rewrite http_failure_log_request_id.
Qed.

(** X16. On a routing failure (the pair of the event has no route) the log
    record holds the method and the path of the event, the status 404 or
    405 and the level "warning"; the request identifier of the event is
    not recorded, so the header "x-request-id" of the answer can only come
    from the fields the logging scope starts with. *)
Theorem routing_failure_log self event context (method path : string) :
  _get_route_from_event event = Ok (VStr method, VStr path) ->
  lookup_route self path method = None ->
  exists code env,
    code = match self !! path with Some _ => 405 | None => 404 end
    /\ __call__ self event context =
         (Some (<["status_code" := VInt code]>
                  (<["level" := VStr "warning"]>
                     (<["status_code" := VInt code]>
                        (<["path" := VStr path]>
                           (<["method" := VStr method]>
                              (logger_enter (aws_request_id context))))))),
          Ok env)
    /\ statusCode env = pretty code
    /\ headers env !! "x-request-id"
       = logger_enter (aws_request_id context) !! "request_id".
Proof.
  intros Hroute Hlookup. unfold lookup_route in Hlookup.
  destruct (self !! path) as [path_routes|] eqn:Hpath; simpl in Hlookup.
  - pose proof (try_block_method_missing self method path event context
                  (logger_enter (aws_request_id context)) _ Hpath Hlookup)
      as Htry.
    eexists 405, _. split; [reflexivity|]. split.
    + eapply __call___returns; [exact Hroute|].
      unfold try_statement. rewrite Htry.
      rewrite except_HTTPException_unfold.
      apply _prepare_response_JSON_dict.
    + simpl. split; [reflexivity|].
      rewrite !(lookup_insert_ne _ _ "request_id") by done.
      destruct (logger_enter (aws_request_id context) !! "request_id");
        by rewrite ?lookup_insert_eq, ?lookup_insert_ne by done.
  - pose proof (try_block_route_missing self method path event context
                  (logger_enter (aws_request_id context)) Hpath) as Htry.
    eexists 404, _. split; [reflexivity|]. split.
    + eapply __call___returns; [exact Hroute|].
      unfold try_statement. rewrite Htry.
      rewrite except_HTTPException_unfold.
      apply _prepare_response_JSON_dict.
    + simpl. split; [reflexivity|].
      rewrite !(lookup_insert_ne _ _ "request_id") by done.
      destruct (logger_enter (aws_request_id context) !! "request_id");
        by rewrite ?lookup_insert_eq, ?lookup_insert_ne by done.
Qed.

End Dispatch.

(** * The further properties on concrete inputs *)

(** X1 on OPTIONS "/", registered twice as in the tests. *)
Lemma duplicate_registration_raises_witness :
  exists msg,
    @Handler.options Reference.plain
      (Samples.one_route "/" "OPTIONS" 200 (Samples.returns (VStr "options")))
      "/" None (Samples.returns (VStr "options_duplicate"))
    = Raise (ValueError msg).
Proof.
  apply (duplicate_registration_raises (H := Reference.plain)
           (Samples.one_route "/" "OPTIONS" 200
              (Samples.returns (VStr "options")))
           "/" None (Samples.returns (VStr "options_duplicate"))
           "OPTIONS" Handler.options).
  - unfold registration_methods. do 3 (apply elem_of_cons; right).
    apply elem_of_cons. by left.
  - apply (has_route_lookup _ _ _
             (_APIRoute.mk 200 (Samples.returns (VStr "options")) ∅)).
    vm_compute; reflexivity.
Defined.

(** X2 on GET "/x" with status 202, registered on the empty table. *)
Lemma registration_then_lookup_witness :
  let H := Reference.plain in
  lookup_route
    (<["/x" := {[ "GET" := _APIRoute.mk 202 (Samples.returns VNone) ∅ ]}]> ∅)
    "/x" "GET"
  = Some (_APIRoute.mk 202 (Samples.returns VNone)
            (_check_signature (Samples.returns VNone))).
Proof.
  intros H.
  refine (proj1 (registration_then_lookup (H := H) ∅ "/x" (Some 202)
            (Samples.returns VNone) "GET" Handler.get _ _ _ _)).
  - unfold registration_methods. apply elem_of_cons. right.
    apply elem_of_cons. by left.
  - vm_compute; reflexivity.
Defined.

(** X3 on GET "/" and POST "/", registered on the empty table. *)
Lemma registrations_commute_witness :
  let H := Reference.plain in
  exists t2,
    _api_route ∅ "/" "POST" None (Samples.returns (VStr "post"))
    = Ok (t2, Samples.returns (VStr "post"))
    /\ _api_route t2 "/" "GET" None (Samples.returns (VStr "get"))
       = Ok ({[ "/" :=
                  {[ "GET" :=
                       _APIRoute.mk 200 (Samples.returns (VStr "get")) ∅;
                     "POST" :=
                       _APIRoute.mk 200 (Samples.returns (VStr "post")) ∅ ]}
             ]},
             Samples.returns (VStr "get")).
Proof.
  intros H.
  apply (registrations_commute (H := H) ∅
           "/" "GET" None (Samples.returns (VStr "get"))
           "/" "POST" None (Samples.returns (VStr "post"))
           {[ "/" :=
                {[ "GET" :=
                     _APIRoute.mk 200 (Samples.returns (VStr "get")) ∅ ]} ]});
    vm_compute; reflexivity.
Defined.

(** X4 on the signature of [Samples.wants_both]. *)
Lemma _check_signature_flags_by_annotation_witness :
  _check_signature Samples.wants_both !! "response" = Some ClsResponse
  /\ _check_signature Samples.wants_both !! "other" = None.
Proof.
  assert (Hnodup : NoDup (parameters Samples.wants_both).*1).
  { simpl. repeat (apply NoDup_cons; split;
      [repeat (apply not_elem_of_cons; split; [discriminate|]);
       apply not_elem_of_nil|]).
    apply NoDup_nil_2. }
  split.
  - apply (proj1 (_check_signature_flags_by_annotation Samples.wants_both
                    "response" Hnodup) AnnResponse).
    simpl. apply elem_of_cons. right. apply elem_of_cons. by left.
  - apply (proj1 (_check_signature_flags_by_annotation Samples.wants_both
                    "other" Hnodup) AnnOther).
    simpl. do 2 (apply elem_of_cons; right). apply elem_of_cons. by left.
Defined.

(** X5 on the table that holds GET "/" registered with status 0. *)
Lemma registered_table_routes_witness :
  let H := Reference.plain in
  _APIRoute.status_code
    (_APIRoute.mk 200 (Samples.returns VNone) ∅) <> 0.
Proof.
  intros H.
  refine (proj1 (registered_table_routes (H := H)
            {[ "/" := {[ "GET" := _APIRoute.mk 200 (Samples.returns VNone) ∅ ]} ]}
            _ "/" "GET" _ _)).
  - apply (table_route ∅ "/" "GET" (Some 0) (Samples.returns VNone) _
             (Samples.returns VNone) table_init).
    vm_compute; reflexivity.
  - vm_compute; reflexivity.
Defined.

(** X6 on a JSON response with status 401 and no content, as in the
    tests. *)
Lemma absent_content_error_status_gets_details_witness :
  let H := Reference.plain in
  exists env,
    _prepare_response (JSONResponse VNone 401) ∅
    = (<["status_code" := VInt 401]> ∅, Ok env)
    /\ statusCode env = "401"
    /\ body env
       = Some (dumps (VDict {[ "details" := VStr "Unauthorized" ]}))
    /\ headers env !! "content-length" = Some (VStr "26").
Proof.
  intros H.
  destruct (absent_content_error_status_gets_details (H := H)
              (JSONResponse VNone 401) ∅)
    as (env & Hcall & Hstatus & Hbody & _ & Hlength);
    [reflexivity|vm_compute; discriminate|].
  exists env. split; [exact Hcall|]. split; [exact Hstatus|].
  split; [exact Hbody|]. etrans; [exact Hlength|]. vm_compute; reflexivity.
Defined.

(** X7 on a JSON response with status 200 and the content "get". *)
Lemma present_content_is_rendered_witness :
  let H := Reference.plain in
  exists env,
    _prepare_response (JSONResponse (VStr "get") 200) ∅
    = (<["status_code" := VInt 200]> ∅, Ok env)
    /\ statusCode env = "200"
    /\ body env = Some (Reference.dq +:+ "get" +:+ Reference.dq)
    /\ isBase64Encoded env = false
    /\ headers env !! "content-length" = Some (VStr "5")
    /\ headers env !! "content-type" = Some (VStr "application/json").
Proof.
  intros H.
  destruct (present_content_is_rendered (H := H)
              (JSONResponse (VStr "get") 200) ∅)
    as (env & Hcall & Hstatus & Hbody & Hflag & Hlength & Htype);
    [discriminate|].
  exists env. split; [exact Hcall|]. split; [exact Hstatus|].
  split; [etrans; [exact Hbody|]; vm_compute; reflexivity|].
  split; [exact Hflag|].
  split; [etrans; [exact Hlength|]; vm_compute; reflexivity|exact Htype].
Defined.

(** The route function of [Samples.returns v], registered for GET "/",
    returns [v] and leaves the seeded response as it was. *)
Lemma sample_handler_returns (v : value) :
  handler_returns (H := Reference.plain)
    (Samples.one_route "/" "GET" 200 (Samples.returns v))
    (VStr "GET") (VStr "/") (Samples.http_event "GET" "/" VNone)
    Samples.context
    (@logger_enter Reference.plain (aws_request_id Samples.context))
    (@JSONResponse Reference.plain VNone 200) (RetValue v)
    (<["request_id" := VStr "req-1"]>
       (<["path" := VStr "/"]>
          (<["method" := VStr "GET"]>
             (@logger_enter Reference.plain
                (aws_request_id Samples.context))))).
Proof.
  set (log1 := <["request_id" := VStr "req-1"]> _).
  apply (returns_in_run _ _ _ _ _ _
           (Request.mk (Samples.http_event "GET" "/" VNone) Samples.context)
           (@JSONResponse Reference.plain VNone 200)
           (fun log response => Returned log response (RetValue v))
           log1 log1 log1);
    vm_compute; reflexivity.
Defined.

(** X9 on a route function that raises a validation failure. *)
Lemma validation_failure_response_witness :
  let H := Reference.plain in
  let errors := VList [VStr "type_error.integer"] in
  exists log env,
    __call__ (Samples.one_route "/" "GET" 200
                (Samples.raises (ValidationError errors)))
      (Samples.http_event "GET" "/" VNone) Samples.context
    = (Some log, Ok env)
    /\ statusCode env = "422"
    /\ log !! "level" = Some (VStr "warning").
Proof.
  intros H errors.
  destruct (validation_failure_response (H := H)
              (Samples.one_route "/" "GET" 200
                 (Samples.raises (ValidationError errors)))
              (Samples.http_event "GET" "/" VNone) Samples.context
              (VStr "GET") (VStr "/") errors _
              ltac:(vm_compute; reflexivity)
              (sample_handler_raises (ValidationError errors)))
    as (log & env & Hcall & Hstatus & _ & _ & _ & Hlevel & _).
  by exists log, env.
Defined.

(** X10 on an empty event and on an event whose "http" mapping has only a
    path. *)
Lemma malformed_event_raises_before_logging_witness :
  @__call__ Reference.plain ∅ (VDict ∅) Samples.context
  = (None, Raise (KeyError (VStr "requestContext")))
  /\ @__call__ Reference.plain ∅
       (VDict {[ "requestContext" :=
                   VDict {[ "http" := VDict {[ "path" := VStr "/" ]};
                            "httpMethod" := VStr "GET";
                            "path" := VStr "/" ]} ]})
       Samples.context
     = (None, Raise (KeyError (VStr "method"))).
Proof.
  split.
  - apply (proj1 (malformed_event_raises_before_logging
                    (H := Reference.plain) ∅ Samples.context ∅)).
    vm_compute; reflexivity.
  - apply (proj2 (malformed_event_raises_before_logging
                    (H := Reference.plain) ∅ Samples.context
                    {[ "requestContext" :=
                         VDict {[ "http" := VDict {[ "path" := VStr "/" ]};
                                  "httpMethod" := VStr "GET";
                                  "path" := VStr "/" ]} ]})
             {[ "http" := VDict {[ "path" := VStr "/" ]};
                "httpMethod" := VStr "GET"; "path" := VStr "/" ]}
             {[ "path" := VStr "/" ]});
      vm_compute; reflexivity.
Defined.

(** X11 on an event that has both the header and the "requestId", and on
    one that has only the "requestId". *)
Lemma request_id_precedence_witness :
  let H := Reference.plain in
  set_request_id
    (Request.mk (Samples.http_event_with_header "GET" "/") Samples.context)
    (Samples.http_event_with_header "GET" "/") ∅
  = ({[ "request_id" := VStr "client-7" ]}, Ok tt)
  /\ set_request_id
       (Request.mk (Samples.http_event "GET" "/" VNone) Samples.context)
       (Samples.http_event "GET" "/" VNone) ∅
     = ({[ "request_id" := VStr "req-1" ]}, Ok tt).
Proof.
  intros H. split.
  - apply (proj1 (request_id_precedence (H := H)
                    (Request.mk (Samples.http_event_with_header "GET" "/")
                       Samples.context)
                    (Samples.http_event_with_header "GET" "/") ∅)).
    vm_compute; reflexivity.
  - apply (proj1 (proj2 (request_id_precedence (H := H)
                    (Request.mk (Samples.http_event "GET" "/" VNone)
                       Samples.context)
                    (Samples.http_event "GET" "/" VNone) ∅))
             (VStr "x-request-id"));
      vm_compute; reflexivity.
Defined.

(** X12 on an event without a request identifier, for a route whose route
    function would return "get". *)
Lemma missing_request_id_is_a_fault_witness :
  (@__call__ Reference.plain
     (Samples.one_route "/" "GET" 200 (Samples.returns (VStr "get")))
     (Samples.http_event_without_request_id "GET" "/") Samples.context).2
  = Raise (KeyError (VStr "requestId")).
Proof.
  rewrite (missing_request_id_is_a_fault (H := Reference.plain)
             (Samples.one_route "/" "GET" 200 (Samples.returns (VStr "get")))
             (Samples.http_event_without_request_id "GET" "/")
             Samples.context (VStr "GET") (VStr "/")
             (Request.mk (Samples.http_event_without_request_id "GET" "/")
                Samples.context)
             (@JSONResponse Reference.plain VNone 200)
             (fun log response => Returned log response (RetValue (VStr "get")))
             (VStr "x-request-id") (KeyError (VStr "requestId")));
    [reflexivity|vm_compute; reflexivity..].
Defined.

(** X13 on GET "/" returning the string "get", as in the tests. *)
Lemma returned_value_is_rendered_witness :
  let H := Reference.plain in
  exists log env,
    __call__ (Samples.one_route "/" "GET" 200 (Samples.returns (VStr "get")))
      (Samples.http_event "GET" "/" VNone) Samples.context
    = (Some log, Ok env)
    /\ statusCode env = "200"
    /\ body env = Some (Reference.dq +:+ "get" +:+ Reference.dq)
    /\ headers env !! "x-request-id" = Some (VStr "req-1").
Proof.
  intros H.
  destruct (returned_value_is_rendered (H := H)
              (Samples.one_route "/" "GET" 200 (Samples.returns (VStr "get")))
              (Samples.http_event "GET" "/" VNone) Samples.context
              (VStr "GET") (VStr "/") _ (VStr "get") _
              ltac:(vm_compute; reflexivity)
              (sample_handler_returns (VStr "get"))
              ltac:(discriminate))
    as (env & Hcall & Hstatus & Hbody & _ & Hid).
  eexists _, env. split; [exact Hcall|]. split; [exact Hstatus|].
  split; (etrans; [eassumption|]); vm_compute; reflexivity.
Defined.

(** X15 on an HTTP failure raised with headers of its own. *)
Lemma http_failure_envelope_headers_witness :
  let H := Reference.plain in
  let exception :=
    HTTPException.mk 400 VNone
      (Some {[ "retry-after" := VStr "5" ]}) VNone in
  exists log env,
    __call__ (Samples.one_route "/" "GET" 200
                (Samples.raises (HttpExc exception)))
      (Samples.http_event "GET" "/" VNone) Samples.context
    = (Some log, Ok env)
    /\ headers env !! "retry-after" = None
    /\ headers env !! "content-length" = Some (VStr "24").
Proof.
  intros H exception.
  destruct (http_failure_envelope_headers (H := H)
              (Samples.one_route "/" "GET" 200
                 (Samples.raises (HttpExc exception)))
              (Samples.http_event "GET" "/" VNone) Samples.context
              (VStr "GET") (VStr "/") exception _
              ltac:(vm_compute; reflexivity)
              (sample_handler_raises (HttpExc exception)))
    as (log & env & Hcall & _ & _ & Hheaders).
  exists log, env. split; [exact Hcall|].
  rewrite Hheaders. split; vm_compute; reflexivity.
Defined.

(** X16 on a path that is not registered. *)
Lemma routing_failure_log_witness :
  let H := Reference.plain in
  exists code env,
    __call__ ∅ (Samples.http_event "GET" "/not_exists" VNone) Samples.context
    = (Some (<["status_code" := VInt code]>
               (<["level" := VStr "warning"]>
                  (<["status_code" := VInt code]>
                     (<["path" := VStr "/not_exists"]>
                        (<["method" := VStr "GET"]>
                           (logger_enter (aws_request_id Samples.context))))))),
       Ok env)
    /\ code = 404
    /\ headers env !! "x-request-id" = None.
Proof.
  intros H.
  destruct (routing_failure_log (H := H) ∅
              (Samples.http_event "GET" "/not_exists" VNone) Samples.context
              "GET" "/not_exists")
    as (code & env & Hcode & Hcall & _ & Hid);
    [vm_compute; reflexivity..|].
  exists code, env. split; [exact Hcall|]. split; [exact Hcode|].
  etrans; [exact Hid|]. vm_compute; reflexivity.
Defined.

(** X14 on a route function that returns a binary response, as in the
    tests. *)
Lemma returned_response_replaces_seeded_witness :
  Samples.body_of
    (@__call__ Reference.plain
       (Samples.one_route "/" "POST" 200
          (Samples.returns_binary (String.list_byte_of_string "test")))
       (Samples.http_event "POST" "/" VNone) Samples.context)
  = Some "dGVzdA==".
Proof.
  set (H := Reference.plain).
  set (returned :=
    Response.mk 200 ∅ (VBytes (String.list_byte_of_string "test"))
      (Some "application/octet-stream")
      (fun v => match v with
                | VBytes bs => Binary bs
                | VStr s => Text s
                | _ => Text ""
                end)).
  set (log1 :=
    <["request_id" := VStr "req-1"]>
      (<["path" := VStr "/"]>
         (<["method" := VStr "POST"]>
            (logger_enter (aws_request_id Samples.context))))).
  rewrite (returned_response_replaces_seeded (H := H)
             (Samples.one_route "/" "POST" 200
                (Samples.returns_binary (String.list_byte_of_string "test")))
             (Samples.http_event "POST" "/" VNone) Samples.context
             (VStr "POST") (VStr "/") (JSONResponse VNone 200) returned log1).
  - vm_compute; reflexivity.
  - vm_compute; reflexivity.
  - apply (returns_in_run _ _ _ _ _ _
             (Request.mk (Samples.http_event "POST" "/" VNone)
                Samples.context)
             (JSONResponse VNone 200)
             (fun log response => Returned log response (RetResponse returned))
             log1 log1 log1);
      vm_compute; reflexivity.
Defined.
